(** * The VCI quote adapter of vnstock: [vnstock/explorer/vci/quote.py]

    A shallow embedding of the [Quote] class (construction, [history],
    [intraday], [price_depth]) together with the parts of the Python
    standard library and of pandas that its control flow depends on, and
    the properties of the adapter stated against that embedding.

    Conventions.
    - Python text is modelled as byte strings ([string]); the date parser
      below therefore covers ASCII input.
    - A call either returns or raises; [Result] carries the exception.
    - Observable effects (the network exchange, logger calls) are recorded
      in a trace, so that "before any network call" is a statement about
      the trace. *)

From Stdlib Require Import ZArith QArith Bool List String Ascii Lia.
Import ListNotations.
Open Scope string_scope.
Open Scope Z_scope.

(* ================================================================== *)
(** * Python values, exceptions and dictionaries                        *)
(* ================================================================== *)

Module Py.

(** The exception classes that can surface from the adapter. *)
Inductive Exn :=
| ValueError (msg : string)
| KeyError (key : string)
| NameError (name : string)
| TypeError (msg : string)
| OverflowError (msg : string).

Inductive Result (A : Type) :=
| Ok (a : A)
| Raise (e : Exn).
Arguments Ok {A} a.
Arguments Raise {A} e.

Definition rbind {A B} (r : Result A) (k : A -> Result B) : Result B :=
  match r with
  | Ok a => k a
  | Raise e => Raise e
  end.

(** Python numbers as the adapter produces them: [int], or [float] with
    its exact rational value (every float computed here is a small
    multiple of one half, which binary64 represents exactly). *)
Inductive PyNum :=
| PyInt (z : Z)
| PyFloat (q : Q).

Definition is_int (n : PyNum) : bool :=
  match n with PyInt _ => true | PyFloat _ => false end.

(** A [dict] with string keys, as its items in insertion order. *)
Definition dict (V : Type) := list (string * V).

Definition keys {V} (d : dict V) : list string := map fst d.
Definition values {V} (d : dict V) : list V := map snd d.

Fixpoint get {V} (d : dict V) (k : string) : option V :=
  match d with
  | [] => None
  | (k', v) :: d' => if String.eqb k k' then Some v else get d' k
  end.

(** [k in d.keys()] *)
Definition in_keys {V} (k : string) (d : dict V) : bool :=
  existsb (String.eqb k) (keys d).

(** [d[k]] *)
Definition getitem {V} (d : dict V) (k : string) : Result V :=
  match get d k with
  | Some v => Ok v
  | None => Raise (KeyError k)
  end.

(** [needle in hay] on [str]: substring test. *)
Fixpoint str_in (needle hay : string) : bool :=
  String.prefix needle hay ||
  match hay with
  | EmptyString => false
  | String _ hay' => str_in needle hay'
  end.

(** [sep.join(l)] *)
Fixpoint join (sep : string) (l : list string) : string :=
  match l with
  | [] => ""
  | [x] => x
  | x :: l' => x ++ sep ++ join sep l'
  end.

End Py.
Import Py.

(* ================================================================== *)
(** * [datetime]: calendar arithmetic and [strptime]                    *)
(* ================================================================== *)

Module Calendar.

(** A naive [datetime.datetime].  The date is kept as its proleptic
    Gregorian ordinal ([date.toordinal()], 0001-01-01 is day 1), which is
    what comparison, [weekday()] and [+ timedelta] are defined on. *)
Record datetime := mkdatetime {
  ordinal : Z;
  hour : Z;
  minute : Z;
  second : Z;
  microsecond : Z
}.

Definition MINYEAR : Z := 1.
Definition MAXYEAR : Z := 9999.
Definition _MAXORDINAL : Z := 3652059.

Definition _is_leap (year : Z) : bool :=
  (year mod 4 =? 0) && (negb (year mod 100 =? 0) || (year mod 400 =? 0)).

Definition _days_before_year (year : Z) : Z :=
  let y := year - 1 in
  y * 365 + y / 4 - y / 100 + y / 400.

Definition _DAYS_IN_MONTH : list Z :=
  [-1; 31; 28; 31; 30; 31; 30; 31; 31; 30; 31; 30; 31].

Definition _DAYS_BEFORE_MONTH : list Z :=
  [-1; 0; 31; 59; 90; 120; 151; 181; 212; 243; 273; 304; 334].

Definition _days_in_month (year month : Z) : Z :=
  if (month =? 2) && _is_leap year then 29
  else nth (Z.to_nat month) _DAYS_IN_MONTH (-1).

Definition _days_before_month (year month : Z) : Z :=
  nth (Z.to_nat month) _DAYS_BEFORE_MONTH (-1)
  + (if (month >? 2) && _is_leap year then 1 else 0).

Definition _ymd2ord (year month day : Z) : Z :=
  _days_before_year year + _days_before_month year month + day.

Definition between (lo hi x : Z) : bool := (lo <=? x) && (x <=? hi).

(** [datetime(year, month, day, hour, minute, second)]; [None] stands for
    the [ValueError] of [_check_date_fields] / [_check_time_fields]. *)
Definition make_datetime (year month day hh mm ss : Z) : option datetime :=
  if between MINYEAR MAXYEAR year
     && between 1 12 month
     && between 1 (_days_in_month year month) day
     && between 0 23 hh && between 0 59 mm && between 0 59 ss
  then Some (mkdatetime (_ymd2ord year month day) hh mm ss 0)
  else None.

(** ** Comparison: field by field, most significant first. *)

Definition lex (c1 c2 : comparison) : comparison :=
  match c1 with Eq => c2 | _ => c1 end.

Definition dt_compare (a b : datetime) : comparison :=
  lex (ordinal a ?= ordinal b)
 (lex (hour a ?= hour b)
 (lex (minute a ?= minute b)
 (lex (second a ?= second b)
      (microsecond a ?= microsecond b)))).

(** [a > b] *)
Definition dt_gtb (a b : datetime) : bool :=
  match dt_compare a b with Gt => true | _ => false end.

(** [a == b] *)
Definition dt_eqb (a b : datetime) : bool :=
  match dt_compare a b with Eq => true | _ => false end.

(** [t + timedelta(days=n)]: the time of day is kept, the ordinal moves;
    [OverflowError] outside [1 .. _MAXORDINAL]. *)
Definition add_days (t : datetime) (n : Z) : Result datetime :=
  let o := ordinal t + n in
  if (0 <? o) && (o <=? _MAXORDINAL)
  then Ok (mkdatetime o (hour t) (minute t) (second t) (microsecond t))
  else Raise (OverflowError "date value out of range").

(** [t.weekday()], Monday is 0. *)
Definition weekday (t : datetime) : Z := (ordinal t + 6) mod 7.

(** ** [datetime.strptime] for the two formats the adapter uses.

    [_strptime] compiles the format to a regular expression, one group
    per directive, matches it at the start of the text, and rejects text
    left over after the match.  The groups are
      %Y  \d\d\d\d
      %m  1[0-2]|0[1-9]|[1-9]
      %d  3[0-1]|[1-2]\d|0[1-9]|[1-9]| [1-9]
      %H  2[0-3]|[0-1]\d|\d
      %M  [0-5]\d|\d
      %S  6[0-1]|[0-5]\d|\d
    and a blank in the format stands for \s+.  Every group is followed by
    a literal that is not a digit (or by the end of the expression), so
    the first alternative that matches is the one the match uses. *)

Definition code (c : ascii) : Z := Z.of_nat (nat_of_ascii c).

Definition is_digit (c : ascii) : bool := between 48 57 (code c).
Definition digit_val (c : ascii) : Z := code c - 48.

(** the character class [lo-hi] over digits *)
Definition cls (lo hi : Z) (c : ascii) : bool :=
  is_digit c && between lo hi (digit_val c).

(** ASCII characters matched by \s *)
Definition is_space (c : ascii) : bool :=
  let n := code c in
  (n =? 32) || between 9 13 n || between 28 31 n.

Definition Parser (A : Type) := string -> option (A * string).

Definition two (p1 p2 : ascii -> bool) : Parser Z :=
  fun s =>
    match s with
    | String a (String b rest) =>
        if p1 a && p2 b then Some (10 * digit_val a + digit_val b, rest)
        else None
    | _ => None
    end.

Definition one (p : ascii -> bool) : Parser Z :=
  fun s =>
    match s with
    | String a rest => if p a then Some (digit_val a, rest) else None
    | _ => None
    end.

(** a blank followed by [1-9], the last alternative of %d *)
Definition blank_one : Parser Z :=
  fun s =>
    match s with
    | String a (String b rest) =>
        if (code a =? 32) && cls 1 9 b then Some (digit_val b, rest)
        else None
    | _ => None
    end.

Definition alt {A} (p q : Parser A) : Parser A :=
  fun s => match p s with Some r => Some r | None => q s end.

Definition re_Y : Parser Z :=
  fun s =>
    match s with
    | String a (String b (String c (String d rest))) =>
        if is_digit a && is_digit b && is_digit c && is_digit d
        then Some (1000 * digit_val a + 100 * digit_val b
                   + 10 * digit_val c + digit_val d, rest)
        else None
    | _ => None
    end.

Definition re_m : Parser Z :=
  alt (two (cls 1 1) (cls 0 2)) (alt (two (cls 0 0) (cls 1 9)) (one (cls 1 9))).

Definition re_d : Parser Z :=
  alt (two (cls 3 3) (cls 0 1))
 (alt (two (cls 1 2) is_digit)
 (alt (two (cls 0 0) (cls 1 9))
 (alt (one (cls 1 9)) blank_one))).

Definition re_H : Parser Z :=
  alt (two (cls 2 2) (cls 0 3)) (alt (two (cls 0 1) is_digit) (one is_digit)).

Definition re_M : Parser Z :=
  alt (two (cls 0 5) is_digit) (one is_digit).

Definition re_S : Parser Z :=
  alt (two (cls 6 6) (cls 0 1)) (alt (two (cls 0 5) is_digit) (one is_digit)).

(** a literal character of the format *)
Definition lit (c : ascii) : Parser unit :=
  fun s =>
    match s with
    | String a rest => if Ascii.eqb a c then Some (tt, rest) else None
    | _ => None
    end.

Fixpoint skip_spaces (s : string) : string :=
  match s with
  | String a rest => if is_space a then skip_spaces rest else s
  | EmptyString => s
  end.

(** \s+ *)
Definition spaces1 : Parser unit :=
  fun s =>
    match s with
    | String a rest => if is_space a then Some (tt, skip_spaces rest) else None
    | _ => None
    end.

Definition pbind {A B} (p : Parser A) (k : A -> Parser B) : Parser B :=
  fun s => match p s with Some (a, rest) => k a rest | None => None end.

Definition pret {A} (a : A) : Parser A := fun s => Some (a, s).

Notation "x <~ p ; k" := (pbind p (fun x => k))
  (at level 61, p at next level, right associativity).

Inductive Format :=
| FmtDateTime   (* "%Y-%m-%d %H:%M:%S" *)
| FmtDate.      (* "%Y-%m-%d" *)

Definition re_date : Parser (Z * Z * Z) :=
  y <~ re_Y ; _ <~ lit "-" ; m <~ re_m ; _ <~ lit "-" ; d <~ re_d ;
  pret (y, m, d).

Definition re_time : Parser (Z * Z * Z) :=
  hh <~ re_H ; _ <~ lit ":" ; mm <~ re_M ; _ <~ lit ":" ; ss <~ re_S ;
  pret (hh, mm, ss).

(** [datetime.strptime(s, fmt)]; [None] stands for its [ValueError]
    (no match, unconverted data, or field values that are no date). *)
Definition strptime (s : string) (fmt : Format) : option datetime :=
  match fmt with
  | FmtDate =>
      match re_date s with
      | Some ((y, m, d), EmptyString) => make_datetime y m d 0 0 0
      | _ => None
      end
  | FmtDateTime =>
      match (ymd <~ re_date ; _ <~ spaces1 ; hms <~ re_time ; pret (ymd, hms)) s with
      | Some (((y, m, d), (hh, mm, ss)), EmptyString) =>
          make_datetime y m d hh mm ss
      | _ => None
      end
  end.

End Calendar.
Import Calendar.


(* ================================================================== *)
(** * pandas: the [DataFrame] operations the adapter calls              *)
(* ================================================================== *)

Module Pandas.

Inductive Cell :=
| CNaN
| CBool (b : bool)
| CNum (n : PyNum)
| CStr (s : string)
| CTime (t : datetime).

(** The decoded response of the transport: a list of records, or nothing. *)
Inductive Json :=
| JNone
| JRecords (rows : list (dict Cell)).

(** [bool(json_data)] *)
Definition truthy (j : Json) : bool :=
  match j with
  | JNone => false
  | JRecords [] => false
  | JRecords (_ :: _) => true
  end.

(** A frame holds its columns in order, each with its label and cells,
    and the attributes set on the object itself. *)
Record DataFrame := mkDataFrame {
  data : list (string * list Cell);
  attrs : dict string
}.

Definition columns (df : DataFrame) : list string := map fst (data df).

Definition add_key (acc : list string) (k : string) : list string :=
  if existsb (String.eqb k) acc then acc else acc ++ [k].

(** labels of a list of records, in order of first appearance *)
Definition union_keys (rows : list (dict Cell)) : list string :=
  fold_left (fun acc r => fold_left add_key (keys r) acc) rows [].

Definition cell_of (r : dict Cell) (c : string) : Cell :=
  match get r c with Some v => v | None => CNaN end.

(** [pd.DataFrame(j)] *)
Definition DataFrame_of (j : Json) : DataFrame :=
  match j with
  | JNone => mkDataFrame [] []
  | JRecords rows =>
      mkDataFrame
        (map (fun c => (c, map (fun r => cell_of r c) rows)) (union_keys rows))
        []
  end.

(** [df[c]] for one label *)
Definition column (df : DataFrame) (c : string) : Result (list Cell) :=
  getitem (data df) c.

(** [df[labels]]: the named columns in the order asked for; a label the
    frame does not have raises [KeyError] (reported here for the first
    such label). *)
Fixpoint select (d : list (string * list Cell)) (labels : list string)
  : Result (list (string * list Cell)) :=
  match labels with
  | [] => Ok []
  | k :: labels' =>
      match get d k with
      | Some col => rbind (select d labels') (fun r => Ok ((k, col) :: r))
      | None => Raise (KeyError k)
      end
  end.

Definition getitem_list (df : DataFrame) (labels : list string)
  : Result DataFrame :=
  rbind (select (data df) labels) (fun d => Ok (mkDataFrame d (attrs df))).

(** [df.rename(columns=m, inplace=True)] *)
Definition rename_label (m : dict string) (c : string) : string :=
  match get m c with Some c' => c' | None => c end.

Definition rename (df : DataFrame) (m : dict string) : DataFrame :=
  mkDataFrame (map (fun p => (rename_label m (fst p), snd p)) (data df))
              (attrs df).

(** [df[c] = cells] *)
Definition setitem (df : DataFrame) (c : string) (cells : list Cell)
  : DataFrame :=
  if existsb (String.eqb c) (columns df)
  then mkDataFrame
         (map (fun p => if String.eqb c (fst p) then (fst p, cells) else p)
              (data df))
         (attrs df)
  else mkDataFrame (data df ++ [(c, cells)]) (attrs df).

(** [df.name = value] ([NDFrame.__setattr__]): when [name] is the label
    of a column the assignment goes to that column, every row receiving
    [value]; otherwise it sets an attribute of the object. *)
Definition setattr (df : DataFrame) (name value : string) : DataFrame :=
  if existsb (String.eqb name) (columns df)
  then mkDataFrame
         (map (fun p => if String.eqb name (fst p)
                        then (fst p, map (fun _ => CStr value) (snd p))
                        else p)
              (data df))
         (attrs df)
  else mkDataFrame (data df) ((name, value) :: attrs df).

(** [pd.bdate_range(start=s, end=e)]: the days Monday to Friday from the
    date of [s] to the date of [e], both included ([bdate_range]
    normalises its end points to midnight by default).  This is the index
    for end points that a pandas nanosecond timestamp can hold (1677 to
    2262); for others pandas raises [OutOfBoundsDatetime], which is not
    modelled: statements that a request is built say so only for end
    points inside that range. *)
Definition days_from (o : Z) (n : nat) : list Z :=
  map (fun k => o + Z.of_nat k) (seq 0 n).

Definition midnight (o : Z) : datetime := mkdatetime o 0 0 0 0.

Definition is_business_day (o : Z) : bool := weekday (midnight o) <? 5.

Definition bdate_range (start end_ : datetime) : list datetime :=
  map midnight
      (filter is_business_day
              (days_from (ordinal start)
                         (Z.to_nat (ordinal end_ - ordinal start + 1)))).

(** [len(index)] *)
Definition len {A} (l : list A) : Z := Z.of_nat (List.length l).

End Pandas.
Import Pandas.

(* ================================================================== *)
(** * The adapter: [vnstock/explorer/vci/quote.py]                      *)
(* ================================================================== *)

Module VCI.

(** The decorators [@ProviderRegistry.register(...)] on the class and
    [@optimize_execution("VCI")] on the three operations are taken to
    hand every call through to the decorated function unchanged. *)

(** ** What the module imports *)

(** The answer of the market-hours oracle, [trading_hours(...)]. *)
Record MarketStatus := mkMarketStatus {
  is_trading_hour : bool;
  data_status : string;
  time : string
}.

(** [vnstock.core.utils.client.ProxyConfig]: the four settings handed to
    the transport. *)
Record ProxyConfig := mkProxyConfig {
  proxy_list : list string;
  proxy_mode : string;
  request_mode : string;
  hf_proxy_url : string
}.

(** The three payload shapes. *)
Inductive Payload :=
| ChartPayload (timeFrame : string) (symbols : list (option string))
               (to : Z) (countBack : PyNum)
| TicksPayload (symbol : option string) (limit : Z) (truncTime : option string)
| DepthPayload (symbol : option string).

(** The arguments of one [send_request] call. *)
Record Request := mkRequest {
  rq_url : string;
  rq_headers : dict string;
  rq_method : string;
  rq_payload : Payload;
  rq_show_log : bool;
  rq_proxy_list : list string;
  rq_proxy_mode : string;
  rq_request_mode : string;
  rq_hf_proxy_url : string
}.

(** Modelled from the spec: [vnstock.core.models.TickerModel] is not part
    of the sources at hand; the spec describes the request descriptor as
    the record of symbol, start, end and interval, and [history] reads
    the fields back as it stored them. *)
Record TickerModel := mkTickerModel {
  tk_symbol : option string;
  tk_start : string;
  tk_end : option string;
  tk_interval : string
}.

(** The declarations and collaborators that [quote.py] imports and that
    are not defined in it: the timeframe type and its normaliser, the
    constant tables of [.const], the symbol validator, the asset-type
    classifier, the header factory, the market-hours oracle, the
    transport, the intraday transformer, and from the platform the clock,
    the local-time conversion of [datetime.timestamp] and the pandas cast
    to [datetime64]. *)
Class Env := {
  TimeFrame : Type;
  tf_str : TimeFrame -> string;           (* str(timeframe) *)
  tf_format : TimeFrame -> string;        (* f"{timeframe}" *)
  tf_eq : TimeFrame -> string -> bool;    (* timeframe == value *)
  normalize_interval : string -> Result TimeFrame;
  _TRADING_URL : string;
  _INTRADAY_URL : string;
  _INTERVAL_MAP : dict string;
  _INTRADAY_MAP : dict string;
  _INTRADAY_DTYPE : dict string;
  _PRICE_DEPTH_MAP : dict string;
  _INDEX_MAPPING : dict string;
  validate_symbol : string -> Result string;
  get_asset_type : string -> Result string;
  get_headers : string -> bool -> dict string;
  default_ProxyConfig : ProxyConfig;      (* ProxyConfig() *)
  trading_hours : option datetime -> MarketStatus;
  send_request : Request -> Result Json;
  intraday_to_df : Json -> dict string -> dict string -> option string ->
                   string -> string -> Result DataFrame;
  now : datetime;                         (* datetime.now() *)
  timestamp : datetime -> Z;              (* int(t.timestamp()) *)
  astype_datetime64 : list Cell -> Result (list Cell)
}.

(** ** Effects *)

Inductive Event :=
| Network (r : Request)
| LogWarning (msg : string)
| LogSetLevel (level : string).

(** A computation: the events it caused, and its outcome. *)
Definition M (A : Type) : Type := (list Event * Result A)%type.

Definition ret {A} (a : A) : M A := ([], Ok a).
Definition raise {A} (e : Exn) : M A := ([], Raise e).
Definition lift {A} (r : Result A) : M A := ([], r).
Definition tell (ev : Event) : M unit := ([ev], Ok tt).

Definition bind {A B} (c : M A) (k : A -> M B) : M B :=
  match c with
  | (tr, Ok a) => let (tr', r) := k a in ((tr ++ tr')%list, r)
  | (tr, Raise e) => (tr, Raise e)
  end.

Notation "x <- c ;; k" := (bind c (fun x => k))
  (at level 61, c at next level, right associativity).
Notation "c ;; k" := (bind c (fun _ => k))
  (at level 61, right associativity).
Notation "x <-- r ; k" := (rbind r (fun x => k))
  (at level 61, r at next level, right associativity).

Definition events {A} (c : M A) : list Event := fst c.
Definition outcome {A} (c : M A) : Result A := snd c.

(** the requests a computation sent to the transport *)
Definition requests {A} (c : M A) : list Request :=
  flat_map (fun ev => match ev with Network r => [r] | _ => [] end) (events c).

(** ** Messages *)

Definition str_opt (o : option string) : string :=
  match o with Some s => s | None => "None" end.

Definition msg_index (symbol : option string) (aliases : list string) : string :=
  "Không tìm thấy mã chứng khoán " ++ str_opt symbol
  ++ ". Các giá trị hợp lệ: " ++ join ", " aliases.

Definition interval_choices : string :=
  "Vui lòng chọn: 1m, 5m, 15m, 30m, 1H, 1D, 1W, 1M".

Definition msg_interval (timeframe : string) : string :=
  "Giá trị interval không hợp lệ: " ++ timeframe ++ ". " ++ interval_choices.

Definition msg_date (s : string) : string :=
  "Định dạng ngày không hợp lệ: " ++ s
  ++ ". Sử dụng định dạng YYYY-MM-DD hoặc YYYY-MM-DD HH:MM:SS".

Definition msg_range : string :=
  "Thời gian bắt đầu không thể lớn hơn thời gian kết thúc.".

Definition msg_nodata : string :=
  "Không tìm thấy dữ liệu. Vui lòng kiểm tra lại mã chứng khoán hoặc thời gian truy xuất.".

Definition msg_preparing (time : string) : string :=
  time ++ ": Dữ liệu khớp lệnh không thể truy cập trong thời gian chuẩn bị phiên mới. Vui lòng quay lại sau.".

Definition msg_nosymbol : string :=
  "Vui lòng nhập mã chứng khoán cần truy xuất khi khởi tạo Trading Class.".

Definition msg_page_size : string :=
  "Bạn đang yêu cầu truy xuất quá nhiều dữ liệu, điều này có thể gây lỗi quá tải.".

(** The error kinds of the design, as the code raises them: every one is
    a [ValueError], told apart by its message. *)
Definition UnknownIndexError (e : Exn) : Prop :=
  exists symbol aliases, e = ValueError (msg_index symbol aliases).
Definition InvalidIntervalError (e : Exn) : Prop :=
  exists timeframe, e = ValueError (msg_interval timeframe).
Definition InvalidDateFormatError (e : Exn) : Prop :=
  exists s, e = ValueError (msg_date s).
Definition InvalidRangeError (e : Exn) : Prop :=
  e = ValueError msg_range.
Definition MarketUnavailableError (e : Exn) : Prop :=
  exists time, e = ValueError (msg_preparing time).
Definition NoDataError (e : Exn) : Prop :=
  e = ValueError msg_nodata.

Section Adapter.
Context {E : Env}.

Definition call (r : Request) : M Json := ([Network r], send_request r).

(** ** The instance *)

Record Quote := mkQuote {
  symbol : option string;
  data_source : string;
  _history : option DataFrame;
  asset_type : string;
  base_url : string;
  headers : dict string;
  interval_map : dict string;
  show_log : bool;
  proxy_config : ProxyConfig
}.

Definition with_symbol (self : Quote) (s : option string) : Quote :=
  mkQuote s (data_source self) (_history self) (asset_type self)
          (base_url self) (headers self) (interval_map self)
          (show_log self) (proxy_config self).

(** [Quote._index_validation], lines 55-61. *)
Definition _index_validation (self : Quote) : Result string :=
  let present :=
    match symbol self with
    | Some s => in_keys s _INDEX_MAPPING
    | None => false
    end in
  if negb present
  then Raise (ValueError (msg_index (symbol self) (keys _INDEX_MAPPING)))
  else getitem _INDEX_MAPPING (str_opt (symbol self)).

(** [Quote.__init__], lines 38-53. *)
Definition __init__ (symbol_arg : string) (random_agent : bool)
    (proxy_config_arg : option ProxyConfig) (show_log_arg : bool) : M Quote :=
  s <- lift (validate_symbol symbol_arg) ;;
  a <- lift (get_asset_type s) ;;
  let self :=
    mkQuote (Some s) "VCI" None a _TRADING_URL
            (get_headers "VCI" random_agent) _INTERVAL_MAP show_log_arg
            (match proxy_config_arg with
             | Some p => p
             | None => default_ProxyConfig
             end) in
  (if negb show_log_arg then tell (LogSetLevel "CRITICAL") else ret tt) ;;
  if str_in "INDEX" s
  then s' <- lift (_index_validation self) ;; ret (with_symbol self (Some s'))
  else ret self.

(** [Quote._input_validation], lines 63-80. *)
Definition _input_validation (self : Quote) (start : string)
    (end_ : option string) (interval : string) : Result TickerModel :=
  timeframe <-- normalize_interval interval ;
  let ticker := mkTickerModel (symbol self) start end_ (tf_str timeframe) in
  if negb (existsb (tf_eq timeframe) (values (interval_map self)))
  then Raise (ValueError (msg_interval (tf_format timeframe)))
  else Ok ticker.

(** ** [Quote.history], lines 83-181 *)

(** lines 101-109: date-time format first, then date-only *)
Definition start_time_of (text : string) : Result datetime :=
  match strptime text FmtDateTime with
  | Some t => Ok t
  | None =>
      match strptime text FmtDate with
      | Some t => Ok t
      | None => Raise (ValueError (msg_date text))
      end
  end.

(** lines 113-121: a date-only end is advanced by one day; the addition
    stands inside the inner [try], whose handler catches [ValueError]
    only. *)
Definition end_time_of (text : string) : Result datetime :=
  match strptime text FmtDateTime with
  | Some t => Ok t
  | None =>
      match strptime text FmtDate with
      | Some t => add_days t 1
      | None => Raise (ValueError (msg_date text))
      end
  end.

(** lines 112-128: the effective end and its epoch seconds *)
Definition end_window (end_ : option string) (ticker : TickerModel)
    (start_time : datetime) : Result (datetime * Z) :=
  match end_ with
  | Some _ =>
      end_time <--
        match tk_end ticker with
        | Some text => end_time_of text
        | None => Raise (TypeError "strptime() argument 1 must be str, not None")
        end ;
      if dt_gtb start_time end_time
      then Raise (ValueError msg_range)
      else Ok (end_time, timestamp end_time)
  | None =>
      end_time <-- add_days now 1 ;
      Ok (end_time, timestamp end_time)
  end.

(** lines 132-150: the count-back *)
Definition auto_count_back_of (count_back : option Z) (end_ : option string)
    (interval_value : string) (business_days : list datetime) : PyNum :=
  match count_back, end_ with
  | None, Some _ =>
      let interval_mapped := interval_value in
      if String.eqb interval_mapped "ONE_DAY"
      then PyInt (len business_days + 1)
      else if String.eqb interval_mapped "ONE_HOUR"
      then PyFloat (inject_Z (len business_days) * 6.5 + 1)%Q
      else if String.eqb interval_mapped "ONE_MINUTE"
      then PyFloat (inject_Z (len business_days) * 6.5 * 60 + 1)%Q
      else PyInt 1000
  | _, _ =>
      match count_back with
      | Some c => PyInt c
      | None => PyInt 1000
      end
  end.

(** lines 97-172: everything up to the arguments of [send_request] *)
Definition history_request (self : Quote) (start : string)
    (end_ : option string) (interval : string) (show_log_arg : bool)
    (count_back : option Z) : Result Request :=
  ticker <-- _input_validation self start end_ interval ;
  start_time <-- start_time_of (tk_start ticker) ;
  window <-- end_window end_ ticker start_time ;
  let end_time := fst window in
  let end_stamp := snd window in
  interval_value <-- getitem (interval_map self) (tk_interval ticker) ;
  let business_days := bdate_range start_time end_time in
  let auto_count_back :=
    auto_count_back_of count_back end_ interval_value business_days in
  let url := base_url self ++ "chart/OHLCChart/gap-chart" in
  let payload :=
    ChartPayload interval_value [symbol self] end_stamp auto_count_back in
  Ok (mkRequest url (headers self) "POST" payload show_log_arg
                (proxy_list (proxy_config self))
                (proxy_mode (proxy_config self))
                (request_mode (proxy_config self))
                (hf_proxy_url (proxy_config self))).

(** The names in scope at line 178: the locals of [history] and the
    globals of the module (its imports, [logger] and [Quote]).  Only
    [json_data] holds the response; no built-in is called [dt]. *)
Definition history_locals : list string :=
  ["self"; "start"; "end"; "interval"; "show_log"; "count_back"; "floating";
   "ticker"; "start_time"; "end_time"; "end_stamp"; "interval_value";
   "auto_count_back"; "business_days"; "interval_mapped"; "url"; "payload";
   "json_data"].

Definition module_globals : list string :=
  ["Dict"; "Optional"; "Union"; "datetime"; "pd"; "optimize_execution";
   "ProviderRegistry"; "DataCategory"; "ProviderType"; "TimeFrame";
   "normalize_interval"; "_TRADING_URL"; "_CHART_URL"; "_INTERVAL_MAP";
   "_OHLC_MAP"; "_RESAMPLE_MAP"; "_OHLC_DTYPE"; "_INTRADAY_URL";
   "_INTRADAY_MAP"; "_INTRADAY_DTYPE"; "_PRICE_DEPTH_MAP"; "_INDEX_MAPPING";
   "TickerModel"; "get_logger"; "trading_hours"; "get_asset_type";
   "validate_symbol"; "get_headers"; "send_request"; "ProxyConfig";
   "ohlc_to_df"; "intraday_to_df"; "logger"; "Quote"].

Inductive Obj :=
| ObjJson (j : Json)     (* the decoded response *)
| ObjOther.              (* any other object in scope *)

(** evaluation of a name at line 178 *)
Definition lookup_name (name : string) (json_data : Json) : Result Obj :=
  if String.eqb name "json_data" then Ok (ObjJson json_data)
  else if existsb (String.eqb name) (history_locals ++ module_globals)%list
  then Ok ObjOther
  else Raise (NameError name).

(** [pd.DataFrame(obj)] *)
Definition pd_DataFrame (obj : Obj) : Result DataFrame :=
  match obj with
  | ObjJson j => Ok (DataFrame_of j)
  | ObjOther => Raise (ValueError "DataFrame constructor not properly called!")
  end.

(** lines 174-181: from the response to the table *)
Definition history_frame (json_data : Json) : Result DataFrame :=
  if negb (truthy json_data)
  then Raise (ValueError msg_nodata)
  else
    dt <-- lookup_name "dt" json_data ;
    df <-- pd_DataFrame dt ;
    day <-- column df "day" ;
    day' <-- astype_datetime64 day ;
    Ok (setitem df "day" day').

Definition history (self : Quote) (start : string) (end_ : option string)
    (interval : string) (show_log_arg : bool) (count_back : option Z)
    (floating : Z) : M DataFrame :=
  req <- lift (history_request self start end_ interval show_log_arg
                               count_back) ;;
  json_data <- call req ;;
  lift (history_frame json_data).

(** ** The market gate shared by [intraday] and [price_depth],
    lines 194-196 and 244-246 *)
Definition preparing (market_status : MarketStatus) : bool :=
  negb (is_trading_hour market_status)
  && String.eqb (data_status market_status) "preparing".

(** ** [Quote.intraday], lines 184-234 *)
Definition intraday (self : Quote) (page_size : option Z)
    (last_time : option string) (show_log_arg : bool) : M DataFrame :=
  let market_status := trading_hours None in
  if preparing market_status
  then raise (ValueError (msg_preparing (time market_status)))
  else
    match symbol self with
    | None => raise (ValueError msg_nosymbol)
    | Some _ =>
        match page_size with
        | None =>
            raise (TypeError
              "'>' not supported between instances of 'NoneType' and 'int'")
        | Some n =>
            (if n >? 30000 then tell (LogWarning msg_page_size) else ret tt) ;;
            let url := base_url self ++ _INTRADAY_URL ++ "/LEData/getAll" in
            let payload := TicksPayload (symbol self) n last_time in
            data <- call (mkRequest url (headers self) "POST" payload
                            show_log_arg
                            (proxy_list (proxy_config self))
                            (proxy_mode (proxy_config self))
                            (request_mode (proxy_config self))
                            (hf_proxy_url (proxy_config self))) ;;
            lift (intraday_to_df data _INTRADAY_MAP _INTRADAY_DTYPE
                                 (symbol self) (asset_type self)
                                 (data_source self))
        end
    end.

(** ** [Quote.price_depth], lines 237-278 *)
Definition price_depth (self : Quote) (show_log_arg : bool) : M DataFrame :=
  let market_status := trading_hours None in
  if preparing market_status
  then raise (ValueError (msg_preparing (time market_status)))
  else
    match symbol self with
    | None => raise (ValueError msg_nosymbol)
    | Some _ =>
        let url := base_url self ++ _INTRADAY_URL
                   ++ "/AccumulatedPriceStepVol/getSymbolData" in
        let payload := DepthPayload (symbol self) in
        data <- call (mkRequest url (headers self) "POST" payload
                        show_log_arg
                        (proxy_list (proxy_config self))
                        (proxy_mode (proxy_config self))
                        (request_mode (proxy_config self))
                        (hf_proxy_url (proxy_config self))) ;;
        let df := DataFrame_of data in
        df <- lift (getitem_list df (keys _PRICE_DEPTH_MAP)) ;;
        let df := rename df _PRICE_DEPTH_MAP in
        let df := setattr df "source" (data_source self) in
        ret df
    end.

End Adapter.

End VCI.
Import VCI.

(* ================================================================== *)
(** * Concrete environments                                             *)
(* ================================================================== *)

Module Fixtures.

(** Modelled from the spec: [vnstock.core.types.TimeFrame] and
    [vnstock.core.utils.interval.normalize_interval] are not part of the
    sources at hand.  The spec gives the recognised set 1m, 5m, 15m, 30m,
    1H, 1D, 1W, 1M and the normaliser as the map from such a string to
    the canonical timeframe, failing on any other string. *)
Inductive SpecTimeFrame :=
| MINUTE_1 | MINUTE_5 | MINUTE_15 | MINUTE_30
| HOUR_1 | DAY_1 | WEEK_1 | MONTH_1.

Definition spec_value (t : SpecTimeFrame) : string :=
  match t with
  | MINUTE_1 => "1m" | MINUTE_5 => "5m" | MINUTE_15 => "15m"
  | MINUTE_30 => "30m" | HOUR_1 => "1H" | DAY_1 => "1D"
  | WEEK_1 => "1W" | MONTH_1 => "1M"
  end.

Definition spec_timeframes : list SpecTimeFrame :=
  [MINUTE_1; MINUTE_5; MINUTE_15; MINUTE_30; HOUR_1; DAY_1; WEEK_1; MONTH_1].

Definition spec_normalize (interval : string) : Result SpecTimeFrame :=
  match find (fun t => String.eqb (spec_value t) interval) spec_timeframes with
  | Some t => Ok t
  | None => Raise (ValueError ("Invalid interval: " ++ interval))
  end.

(** Modelled from the spec: [_INTERVAL_MAP] of [.const] is not part of
    the sources at hand.  The spec gives it as the map from the canonical
    timeframe to the provider code, [history] tests the codes ONE_DAY,
    ONE_HOUR and ONE_MINUTE, and weekly and monthly are said to take the
    fallback count. *)
Definition spec_interval_map : dict string :=
  [("1m", "ONE_MINUTE"); ("5m", "ONE_MINUTE"); ("15m", "ONE_MINUTE");
   ("30m", "ONE_MINUTE"); ("1H", "ONE_HOUR"); ("1D", "ONE_DAY");
   ("1W", "ONE_WEEK"); ("1M", "ONE_MONTH")].

(** An interval map whose keys are the provider codes themselves, for a
    timeframe type whose members print as, and compare equal to, their
    provider code: the guard of [_input_validation] lets these through. *)
Definition code_interval_map : dict string :=
  [("ONE_MINUTE", "ONE_MINUTE"); ("ONE_HOUR", "ONE_HOUR");
   ("ONE_DAY", "ONE_DAY"); ("ONE_WEEK", "ONE_WEEK")].

Definition code_normalize (interval : string) : Result string :=
  if String.eqb interval "1m" then Ok "ONE_MINUTE"
  else if String.eqb interval "1H" then Ok "ONE_HOUR"
  else if String.eqb interval "1D" then Ok "ONE_DAY"
  else if String.eqb interval "1W" then Ok "ONE_WEEK"
  else Raise (ValueError ("Invalid interval: " ++ interval)).

Definition index_mapping : dict string :=
  [("VNINDEX", "VNINDEX"); ("HNXINDEX", "HNXIndex");
   ("UPCOMINDEX", "HNXUpcomIndex")].

Definition price_depth_map : dict string :=
  [("priceStep", "price"); ("accumulatedVolume", "acc_volume");
   ("accumulatedBuyVolume", "acc_buy_volume");
   ("accumulatedSellVolume", "acc_sell_volume")].

(** seconds since 1970-01-01 for a clock running on UTC *)
Definition utc_timestamp (t : datetime) : Z :=
  (ordinal t - 719163) * 86400 + hour t * 3600 + minute t * 60 + second t.

Definition some_headers : dict string :=
  [("Accept", "application/json"); ("User-Agent", "Mozilla/5.0")].

Definition no_proxy : ProxyConfig := mkProxyConfig [] "try" "direct" "".

(** An environment over a timeframe type, its normaliser and interval
    map, the answer of the transport and the answer of the oracle. *)
Definition env_of (TF : Type) (str : TF -> string) (eq : TF -> string -> bool)
    (norm : string -> Result TF) (imap : dict string)
    (response : Result Json) (status : MarketStatus) : Env :=
  {| TimeFrame := TF;
     tf_str := str;
     tf_format := str;
     tf_eq := eq;
     normalize_interval := norm;
     _TRADING_URL := "https://trading.example/api/";
     _INTRADAY_URL := "market-watch";
     _INTERVAL_MAP := imap;
     _INTRADAY_MAP := [("truncTime", "time"); ("matchPrice", "price")];
     _INTRADAY_DTYPE := [("time", "datetime64[ns]"); ("price", "float64")];
     _PRICE_DEPTH_MAP := price_depth_map;
     _INDEX_MAPPING := index_mapping;
     validate_symbol := fun s => Ok s;
     get_asset_type := fun s => Ok (if str_in "INDEX" s then "index" else "stock");
     get_headers := fun _ _ => some_headers;
     default_ProxyConfig := no_proxy;
     trading_hours := fun _ => status;
     send_request := fun _ => response;
     intraday_to_df := fun j _ _ _ _ _ => Ok (DataFrame_of j);
     now := mkdatetime 738895 9 0 0 0;
     timestamp := utc_timestamp;
     astype_datetime64 := fun cells => Ok cells |}.

Definition spec_env : Result Json -> MarketStatus -> Env :=
  env_of SpecTimeFrame spec_value (fun t v => String.eqb (spec_value t) v)
         spec_normalize spec_interval_map.

Definition code_env : Result Json -> MarketStatus -> Env :=
  env_of string (fun t => t) String.eqb code_normalize code_interval_map.

Definition open_market : MarketStatus :=
  mkMarketStatus true "real_time" "2024-01-10 10:00:00".

Definition closed_preparing : MarketStatus :=
  mkMarketStatus false "preparing" "2024-01-10 08:30:00".

Definition bars : Json :=
  JRecords
    [[("day", CStr "2024-01-02"); ("open", CNum (PyFloat 23.5));
      ("close", CNum (PyFloat 24)); ("volume", CNum (PyInt 1200))];
     [("day", CStr "2024-01-03"); ("open", CNum (PyFloat 24));
      ("close", CNum (PyFloat 23.75)); ("volume", CNum (PyInt 900))]].

Definition depth_rows : Json :=
  JRecords
    [[("symbol", CStr "ACB"); ("priceStep", CNum (PyFloat 23.5));
      ("accumulatedVolume", CNum (PyInt 500));
      ("accumulatedBuyVolume", CNum (PyInt 300));
      ("accumulatedSellVolume", CNum (PyInt 200))];
     [("symbol", CStr "ACB"); ("priceStep", CNum (PyFloat 23.6));
      ("accumulatedVolume", CNum (PyInt 100));
      ("accumulatedBuyVolume", CNum (PyInt 40));
      ("accumulatedSellVolume", CNum (PyInt 60))]].

(** the instance that [Quote("ACB")] builds in such an environment *)
Definition acb (imap : dict string) : Quote :=
  mkQuote (Some "ACB") "VCI" None "stock" "https://trading.example/api/"
          some_headers imap true no_proxy.

Definition env_bars : Env := code_env (Ok bars) open_market.
Definition env_empty : Env := code_env (Ok (JRecords [])) open_market.
Definition env_depth : Env := code_env (Ok depth_rows) open_market.
Definition env_preparing : Env := code_env (Ok depth_rows) closed_preparing.
Definition env_spec : Env := spec_env (Ok bars) open_market.

(** the interval map of [env_spec] under a normaliser that answers with
    the text it was given *)
Definition env_passthrough : Env :=
  env_of string (fun t => t) String.eqb (fun s => Ok s) spec_interval_map
         (Ok bars) open_market.

Definition acb_code : Quote := acb code_interval_map.
Definition acb_spec : Quote := acb spec_interval_map.

(** [base] with another symbol validator, asset-type classifier and
    depth-column map *)
Definition env_with (base : Env) (validator classifier : string -> Result string)
    (depth_map : dict string) : Env :=
  {| TimeFrame := @TimeFrame base;
     tf_str := @tf_str base;
     tf_format := @tf_format base;
     tf_eq := @tf_eq base;
     normalize_interval := @normalize_interval base;
     _TRADING_URL := @_TRADING_URL base;
     _INTRADAY_URL := @_INTRADAY_URL base;
     _INTERVAL_MAP := @_INTERVAL_MAP base;
     _INTRADAY_MAP := @_INTRADAY_MAP base;
     _INTRADAY_DTYPE := @_INTRADAY_DTYPE base;
     _PRICE_DEPTH_MAP := depth_map;
     _INDEX_MAPPING := @_INDEX_MAPPING base;
     validate_symbol := validator;
     get_asset_type := classifier;
     get_headers := @get_headers base;
     default_ProxyConfig := @default_ProxyConfig base;
     trading_hours := @trading_hours base;
     send_request := @send_request base;
     intraday_to_df := @intraday_to_df base;
     now := @now base;
     timestamp := @timestamp base;
     astype_datetime64 := @astype_datetime64 base |}.

(** a validator that takes upper-case letters and digits only, and a
    classifier that knows nothing *)
Definition strict_validator (s : string) : Result string :=
  if String.eqb s "" then Raise (ValueError "empty symbol") else
  if forallb (fun c => between 65 90 (code c) || between 48 57 (code c))
             (list_ascii_of_string s)
  then Ok s
  else Raise (ValueError ("invalid symbol: " ++ s)).

Definition env_strict : Env :=
  env_with env_bars strict_validator
           (fun s => Ok (if str_in "INDEX" s then "index" else "stock"))
           price_depth_map.

Definition env_unclassified : Env :=
  env_with env_bars (fun s => Ok s)
           (fun s => Raise (ValueError ("unknown asset type: " ++ s)))
           price_depth_map.

(** the transport fails *)
Definition transport_failure : Exn := ValueError "502 Bad Gateway".
Definition env_down : Env := code_env (Raise transport_failure) open_market.

(** a depth-column map that renames a column to "source" *)
Definition depth_map_with_source : dict string :=
  [("priceStep", "price"); ("symbol", "source")].

Definition env_source_column : Env :=
  env_with env_depth (fun s => Ok s) (fun s => Ok "stock")
           depth_map_with_source.

(** a response that lacks one of the columns of [price_depth_map] *)
Definition depth_rows_short : Json :=
  JRecords
    [[("priceStep", CNum (PyFloat 23.5));
      ("accumulatedVolume", CNum (PyInt 500))]].

Definition env_short : Env := code_env (Ok depth_rows_short) open_market.

(** the instance that [Quote("HNXINDEX")] builds *)
Definition hnx : Quote :=
  mkQuote (Some "HNXIndex") "VCI" None "index" "https://trading.example/api/"
          some_headers code_interval_map true no_proxy.

End Fixtures.
Import Fixtures.

(* ================================================================== *)
(** * What a request carries                                            *)
(* ================================================================== *)

Module Sent.

(** the "countBack" entry of a chart payload *)
Definition count_back (r : Request) : option PyNum :=
  match rq_payload r with
  | ChartPayload _ _ _ cb => Some cb
  | _ => None
  end.

(** the "timeFrame" entry of a chart payload: the provider code *)
Definition time_frame (r : Request) : option string :=
  match rq_payload r with
  | ChartPayload tf _ _ _ => Some tf
  | _ => None
  end.

(** the "to" entry of a chart payload: the end in epoch seconds *)
Definition to (r : Request) : option Z :=
  match rq_payload r with
  | ChartPayload _ _ t _ => Some t
  | _ => None
  end.

(** the same time of day on the following day *)
Definition next_day (t : datetime) : datetime :=
  mkdatetime (ordinal t + 1) (hour t) (minute t) (second t) (microsecond t).

(** a float that is a whole number *)
Definition integral (n : PyNum) : Prop :=
  match n with
  | PyInt _ => True
  | PyFloat q => exists z : Z, (q == inject_Z z)%Q
  end.

(** the cells of a response under one label, row by row *)
Definition raw_column (raw : Json) (label : string) : list Cell :=
  match raw with
  | JNone => []
  | JRecords rows => map (fun r => cell_of r label) rows
  end.

End Sent.

(* ================================================================== *)
(** * What a call leaves in the log                                     *)
(* ================================================================== *)

Module Logged.

(** the warnings a computation logged *)
Definition warnings {A : Type} (c : M A) : list string :=
  flat_map (fun ev => match ev with LogWarning m => [m] | _ => [] end)
           (events c).

(** the "limit" entry of a ticks payload *)
Definition limit (r : Request) : option Z :=
  match rq_payload r with
  | TicksPayload _ n _ => Some n
  | _ => None
  end.

(** the symbol a payload names *)
Definition symbols_sent (r : Request) : list (option string) :=
  match rq_payload r with
  | ChartPayload _ l _ _ => l
  | TicksPayload s _ _ => [s]
  | DepthPayload s => [s]
  end.

(** the days from the date of [s] to the date of [e], both included *)
Definition days_in_window (s e : datetime) : Z :=
  Z.max 0 (ordinal e - ordinal s + 1).

(** the number of records of a response *)
Definition records (raw : Json) : nat :=
  match raw with
  | JNone => 0%nat
  | JRecords rows => List.length rows
  end.

(** the number a Python number stands for *)
Definition value (n : PyNum) : Q :=
  match n with
  | PyInt z => inject_Z z
  | PyFloat q => q
  end.

End Logged.

(* ================================================================== *)
(** * The window of a request, in the words of the spec                 *)
(* ================================================================== *)

Module Window.

(** The spec sizes the estimate on "a business-day calendar between start
    and end (inclusive, excluding weekends)".  In these words, without
    reference to how the code counts: [n] is the number of days, from the
    date of [st] to the date of [et] and both included, that are neither
    a Saturday nor a Sunday.  A day is given by its ordinal, and
    [weekday] counts Monday as 0, so that Saturday is 5 and Sunday 6. *)
Definition business_days (st et : datetime) (n : Z) : Prop :=
  exists days : list Z,
    NoDup days
    /\ (forall o,
           In o days <->
           ordinal st <= o <= ordinal et
           /\ weekday (midnight o) <> 5 /\ weekday (midnight o) <> 6)
    /\ n = Z.of_nat (List.length days).

(** The days that lie wholly inside the range of a pandas nanosecond
    timestamp (1677-09-21 00:12:43 to 2262-04-11 23:47:16).  Outside that
    range [pd.bdate_range] raises [OutOfBoundsDatetime]; [bdate_range]
    above gives the index for end points inside it. *)
Definition in_timestamp_range (t : datetime) : Prop :=
  _ymd2ord 1677 9 22 <= ordinal t <= _ymd2ord 2262 4 10.

End Window.

(* ================================================================== *)
(** * Properties                                                        *)
(* ================================================================== *)

(** ** How a call to [history] runs *)

Section HistoryRuns.
Context {E : Env}.
Variables (self : Quote) (start : string) (end_ : option string)
          (interval : string) (show_log_arg : bool) (count_back : option Z)
          (floating : Z).

(** A call that passes validation makes exactly one exchange, and its
    outcome is what the response handling makes of the answer. *)
Lemma history_accepted (req : Request) :
  history_request self start end_ interval show_log_arg count_back = Ok req ->
  history self start end_ interval show_log_arg count_back floating
  = ([Network req], rbind (send_request req) history_frame).
Proof.
  intros Hreq. unfold history. rewrite Hreq. cbn.
  destruct (send_request req) as [json | e]; cbn; [|reflexivity].
  destruct (history_frame json); reflexivity.
Qed.

(** A call that fails validation makes no exchange. *)
Lemma history_rejected (e : Exn) :
  history_request self start end_ interval show_log_arg count_back = Raise e ->
  history self start end_ interval show_log_arg count_back floating
  = ([], Raise e).
Proof.
  intros Hreq. unfold history. rewrite Hreq. reflexivity.
Qed.

Lemma history_requests_accepted (req : Request) :
  history_request self start end_ interval show_log_arg count_back = Ok req ->
  requests (history self start end_ interval show_log_arg count_back floating)
  = [req].
Proof.
  intros Hreq. rewrite (history_accepted _ Hreq). reflexivity.
Qed.

End HistoryRuns.

(** ** Response handling of [history] *)

Lemma dt_is_unbound :
  existsb (String.eqb "dt") (history_locals ++ module_globals)%list = false.
Proof. reflexivity. Qed.

Lemma history_frame_falsy {E : Env} (json : Json) :
  truthy json = false ->
  history_frame json = Raise (ValueError msg_nodata).
Proof.
  intros Hfalsy. unfold history_frame. rewrite Hfalsy. reflexivity.
Qed.

Lemma history_frame_truthy {E : Env} (json : Json) :
  truthy json = true ->
  history_frame json = Raise (NameError "dt").
Proof.
  intros Htruthy. unfold history_frame. rewrite Htruthy. reflexivity.
Qed.

(** C9.  When the call reaches the transport and the transport answers
    with an empty or falsy response, [history] fails with the no-data
    error; no table, complete or partial, is returned. *)
Theorem history_empty_response_NoDataError {E : Env}
    (self : Quote) (start : string) (end_ : option string)
    (interval : string) (show_log_arg : bool) (count_back : option Z)
    (floating : Z) (req : Request) (json : Json) :
  history_request self start end_ interval show_log_arg count_back = Ok req ->
  send_request req = Ok json ->
  truthy json = false ->
  (exists e,
      outcome (history self start end_ interval show_log_arg count_back floating)
      = Raise e /\ NoDataError e)
  /\ forall df,
      outcome (history self start end_ interval show_log_arg count_back floating)
      <> Ok df.
Proof.
  intros Hreq Hsend Hfalsy.
  rewrite (history_accepted _ _ _ _ _ _ floating _ Hreq). cbn.
  rewrite Hsend. cbn. rewrite (history_frame_falsy _ Hfalsy).
  split.
  - exists (ValueError msg_nodata). split; reflexivity.
  - intros df Hdf. discriminate Hdf.
Qed.

Lemma history_empty_response_NoDataError_witness :
  (exists e,
      outcome (history (E := env_empty)
                       acb_code
                       "2024-01-01" (Some "2024-01-05") "1D" false None 2)
      = Raise e /\ NoDataError e)
  /\ forall df,
      outcome (history (E := env_empty)
                       acb_code
                       "2024-01-01" (Some "2024-01-05") "1D" false None 2)
      <> Ok df.
Proof.
  eapply (history_empty_response_NoDataError
            (E := env_empty));
    reflexivity.
Defined.

(** the answer [None] is treated like the empty list *)
Example history_none_response :
  history (E := code_env (Ok JNone) open_market) acb_code
          "2024-01-01" (Some "2024-01-05") "1D" false None 2
  = ([Network
        (mkRequest "https://trading.example/api/chart/OHLCChart/gap-chart"
                   some_headers "POST"
                   (ChartPayload "ONE_DAY" [Some "ACB"] 1704499200 (PyInt 6))
                   false [] "try" "direct" "")],
     Raise (ValueError msg_nodata)).
Proof. reflexivity. Qed.

(** C1.  What the code does where the claim expects the table: when the
    call reaches the transport and the answer is a non-empty list of raw
    bars, line 178 evaluates the name [dt], which nothing binds, and the
    call ends in [NameError]; no table is returned. *)
Theorem history_nonempty_response_NameError {E : Env}
    (self : Quote) (start : string) (end_ : option string)
    (interval : string) (show_log_arg : bool) (count_back : option Z)
    (floating : Z) (req : Request) (json : Json) :
  history_request self start end_ interval show_log_arg count_back = Ok req ->
  send_request req = Ok json ->
  truthy json = true ->
  history self start end_ interval show_log_arg count_back floating
  = ([Network req], Raise (NameError "dt")).
Proof.
  intros Hreq Hsend Htruthy.
  rewrite (history_accepted _ _ _ _ _ _ floating _ Hreq), Hsend. cbn.
  rewrite (history_frame_truthy _ Htruthy). reflexivity.
Qed.

Lemma history_nonempty_response_NameError_witness :
  outcome (history (E := env_bars)
                   acb_code
                   "2024-01-01" (Some "2024-01-05") "1D" false None 2)
  = Raise (NameError "dt").
Proof.
  erewrite (history_nonempty_response_NameError
              (E := env_bars)); reflexivity.
Defined.

(** ** Dates *)

(** [strptime] on a few texts: zero-padded and bare fields, a day that
    the month does not have, and each format on text of the other. *)
Example strptime_examples :
  strptime "2024-01-05" FmtDate = Some (mkdatetime 738890 0 0 0 0)
  /\ strptime "2024-01-05 10:30:05" FmtDateTime
     = Some (mkdatetime 738890 10 30 5 0)
  /\ strptime "2024-1-5  7:3:9" FmtDateTime = Some (mkdatetime 738890 7 3 9 0)
  /\ strptime "2024-02-30" FmtDate = None
  /\ strptime "2024-01-05 10:30:60" FmtDateTime = None
  /\ strptime "2024-01-05 10:30:05" FmtDate = None
  /\ strptime "2024-01-05" FmtDateTime = None
  /\ strptime "0001-01-01" FmtDate = Some (mkdatetime 1 0 0 0 0)
  /\ strptime "9999-12-31" FmtDate = Some (mkdatetime _MAXORDINAL 0 0 0 0).
Proof. repeat split. Qed.

Lemma dt_compare_refl (t : datetime) : dt_compare t t = Eq.
Proof.
  unfold dt_compare. rewrite !Z.compare_refl. reflexivity.
Qed.

(** no datetime is later than itself *)
Lemma dt_gtb_irrefl (t : datetime) : dt_gtb t t = false.
Proof. unfold dt_gtb. rewrite dt_compare_refl. reflexivity. Qed.

(** a datetime on an earlier day is not the later one *)
Lemma dt_gtb_earlier_day (a b : datetime) :
  ordinal a < ordinal b -> dt_gtb a b = false.
Proof.
  intros Hlt. unfold dt_gtb, dt_compare.
  apply Z.compare_lt_iff in Hlt. rewrite Hlt. reflexivity.
Qed.

Lemma dt_gtb_later_day (a b : datetime) :
  ordinal b < ordinal a -> dt_gtb a b = true.
Proof.
  intros Hlt. unfold dt_gtb, dt_compare.
  apply Z.compare_gt_iff in Hlt. rewrite Hlt. reflexivity.
Qed.

Lemma add_days_ok (t t' : datetime) (n : Z) :
  add_days t n = Ok t' ->
  t' = mkdatetime (ordinal t + n) (hour t) (minute t) (second t) (microsecond t)
  /\ 0 < ordinal t + n <= _MAXORDINAL.
Proof.
  unfold add_days.
  destruct ((0 <? ordinal t + n) && (ordinal t + n <=? _MAXORDINAL)) eqn:Hrange;
    intros H; inversion H; subst.
  apply andb_true_iff in Hrange as [H1 H2].
  apply Z.ltb_lt in H1. apply Z.leb_le in H2. auto.
Qed.

Lemma add_days_in_range (t : datetime) (n : Z) :
  0 < ordinal t + n <= _MAXORDINAL ->
  add_days t n
  = Ok (mkdatetime (ordinal t + n) (hour t) (minute t) (second t)
                   (microsecond t)).
Proof.
  intros [H1 H2]. unfold add_days.
  apply Z.ltb_lt in H1. apply Z.leb_le in H2. rewrite H1, H2. reflexivity.
Qed.

Lemma add_days_raises (t : datetime) (n : Z) (e : Exn) :
  add_days t n = Raise e -> e = OverflowError "date value out of range".
Proof.
  unfold add_days.
  destruct ((0 <? ordinal t + n) && (ordinal t + n <=? _MAXORDINAL));
    intros H; inversion H; reflexivity.
Qed.

(** Text that is a date in the date-only format is not one in the
    date-time format: after the day the latter wants white space. *)
Lemma strptime_date_only (text : string) (d : datetime) :
  strptime text FmtDate = Some d -> strptime text FmtDateTime = None.
Proof.
  unfold strptime, pbind.
  destruct (re_date text) as [[[[y m] dd] rest]|]; [|discriminate].
  destruct rest; [|discriminate].
  intros _. reflexivity.
Qed.

(** a date-only text parses to midnight of its day *)
Lemma strptime_date_midnight (text : string) (d : datetime) :
  strptime text FmtDate = Some d -> d = midnight (ordinal d).
Proof.
  unfold strptime.
  destruct (re_date text) as [[[[y m] dd] rest]|]; [|discriminate].
  destruct rest; [|discriminate].
  unfold make_datetime.
  match goal with |- (if ?c then _ else _) = _ -> _ => destruct c end;
    [|discriminate].
  intros H. inversion H. reflexivity.
Qed.

(** every parsed date lies in the range of [date] *)
Lemma make_datetime_ordinal (y m d hh mm ss : Z) (t : datetime) :
  make_datetime y m d hh mm ss = Some t -> ordinal t = _ymd2ord y m d.
Proof.
  unfold make_datetime.
  match goal with |- (if ?c then _ else _) = _ -> _ => destruct c end;
    [|discriminate].
  intros H. inversion H. reflexivity.
Qed.

(** ** The two parsing blocks of [history] *)

Lemma start_time_of_cases (text : string) (st : datetime) :
  start_time_of text = Ok st ->
  strptime text FmtDateTime = Some st
  \/ (strptime text FmtDateTime = None /\ strptime text FmtDate = Some st).
Proof.
  unfold start_time_of.
  destruct (strptime text FmtDateTime) as [t|].
  - intros H. inversion H. auto.
  - destruct (strptime text FmtDate) as [t|]; intros H; inversion H. auto.
Qed.

Lemma end_time_of_datetime (text : string) (t : datetime) :
  strptime text FmtDateTime = Some t -> end_time_of text = Ok t.
Proof. intros H. unfold end_time_of. rewrite H. reflexivity. Qed.

Lemma end_time_of_date (text : string) (d : datetime) :
  strptime text FmtDate = Some d -> end_time_of text = add_days d 1.
Proof.
  intros H. unfold end_time_of.
  rewrite (strptime_date_only _ _ H), H. reflexivity.
Qed.

(** ** Validation, step by step *)

Section Validation.
Context {E : Env}.

Lemma _input_validation_ok (self : Quote) (start : string)
    (end_ : option string) (interval : string) (ticker : TickerModel) :
  _input_validation self start end_ interval = Ok ticker ->
  exists timeframe,
    normalize_interval interval = Ok timeframe
    /\ existsb (tf_eq timeframe) (values (interval_map self)) = true
    /\ ticker = mkTickerModel (symbol self) start end_ (tf_str timeframe).
Proof.
  unfold _input_validation.
  destruct (normalize_interval interval) as [timeframe|]; cbn; [|discriminate].
  destruct (existsb (tf_eq timeframe) (values (interval_map self))) eqn:Hguard;
    cbn; intros H; inversion H; subst.
  exists timeframe. repeat split; auto.
Qed.

Lemma end_window_given (e : string) (ticker : TickerModel)
    (st et : datetime) (stamp : Z) :
  tk_end ticker = Some e ->
  end_window (Some e) ticker st = Ok (et, stamp) ->
  end_time_of e = Ok et /\ dt_gtb st et = false /\ stamp = timestamp et.
Proof.
  intros Hend. unfold end_window. rewrite Hend.
  destruct (end_time_of e) as [t|]; cbn; [|discriminate].
  destruct (dt_gtb st t) eqn:Hgt; intros H; inversion H; subst. auto.
Qed.

Lemma end_window_checks (e : string) (ticker : TickerModel)
    (st et : datetime) :
  tk_end ticker = Some e ->
  end_time_of e = Ok et ->
  end_window (Some e) ticker st
  = if dt_gtb st et then Raise (ValueError msg_range)
    else Ok (et, timestamp et).
Proof.
  intros Hend Hparse. unfold end_window. rewrite Hend, Hparse. reflexivity.
Qed.

(** What a call that passes validation has established, and the request
    it has built. *)
Lemma history_request_ok (self : Quote) (start : string)
    (end_ : option string) (interval : string) (show_log_arg : bool)
    (count_back : option Z) (req : Request) :
  history_request self start end_ interval show_log_arg count_back = Ok req ->
  exists timeframe st et iv,
    normalize_interval interval = Ok timeframe
    /\ existsb (tf_eq timeframe) (values (interval_map self)) = true
    /\ start_time_of start = Ok st
    /\ end_window end_
         (mkTickerModel (symbol self) start end_ (tf_str timeframe)) st
       = Ok (et, timestamp et)
    /\ get (interval_map self) (tf_str timeframe) = Some iv
    /\ rq_payload req
       = ChartPayload iv [symbol self] (timestamp et)
           (auto_count_back_of count_back end_ iv (bdate_range st et)).
Proof.
  unfold history_request.
  destruct (_input_validation self start end_ interval) as [ticker|] eqn:Hval;
    cbn; [|discriminate].
  apply _input_validation_ok in Hval as (timeframe & Hnorm & Hguard & ->).
  cbn.
  destruct (start_time_of start) as [st|] eqn:Hstart; cbn; [|discriminate].
  destruct (end_window end_ _ st) as [[et stamp]|] eqn:Hwin; cbn;
    [|discriminate].
  unfold getitem.
  destruct (get (interval_map self) (tf_str timeframe)) as [iv|] eqn:Hget;
    cbn; [|discriminate].
  intros H. inversion H; subst; clear H. cbn.
  assert (stamp = timestamp et) as ->.
  { unfold end_window in Hwin. destruct end_ as [e|]; cbn in Hwin.
    - destruct (end_time_of e) as [t|]; cbn in Hwin; [|discriminate].
      destruct (dt_gtb st t); inversion Hwin; reflexivity.
    - destruct (add_days now 1) as [t|]; cbn in Hwin; inversion Hwin;
        reflexivity. }
  exists timeframe, st, et, iv. auto 10.
Qed.

(** Conversely, these conditions are all a call needs to reach the
    transport, for start and effective end inside the range of pandas
    timestamps (line 134 builds the business-day index of the window
    whether or not it is used). *)
Lemma history_request_complete (self : Quote) (start : string)
    (end_ : option string) (interval : string) (show_log_arg : bool)
    (count_back : option Z) (timeframe : TimeFrame) (st et : datetime)
    (stamp : Z) (iv : string) :
  normalize_interval interval = Ok timeframe ->
  existsb (tf_eq timeframe) (values (interval_map self)) = true ->
  start_time_of start = Ok st ->
  end_window end_
    (mkTickerModel (symbol self) start end_ (tf_str timeframe)) st
  = Ok (et, stamp) ->
  get (interval_map self) (tf_str timeframe) = Some iv ->
  Window.in_timestamp_range st ->
  Window.in_timestamp_range et ->
  history_request self start end_ interval show_log_arg count_back
  = Ok (mkRequest (base_url self ++ "chart/OHLCChart/gap-chart")
                  (headers self) "POST"
                  (ChartPayload iv [symbol self] stamp
                     (auto_count_back_of count_back end_ iv
                                         (bdate_range st et)))
                  show_log_arg
                  (proxy_list (proxy_config self))
                  (proxy_mode (proxy_config self))
                  (request_mode (proxy_config self))
                  (hf_proxy_url (proxy_config self))).
Proof.
  intros Hnorm Hguard Hstart Hwin Hget _ _.
  unfold history_request, _input_validation.
  rewrite Hnorm. unfold rbind at 2; cbv beta iota. rewrite Hguard.
  cbn [negb]. unfold rbind at 1; cbv beta iota.
  cbn [tk_start tk_interval]. rewrite Hstart.
  unfold rbind at 1; cbv beta iota. rewrite Hwin.
  unfold rbind at 1; cbv beta iota.
  unfold getitem. rewrite Hget. reflexivity.
Qed.

End Validation.

(** ** Parsed dates are days of the calendar *)

Lemma between_spec (lo hi x : Z) :
  between lo hi x = true <-> lo <= x <= hi.
Proof.
  unfold between. rewrite andb_true_iff, !Z.leb_le. tauto.
Qed.

Lemma _days_before_year_nonneg (year : Z) :
  1 <= year -> 0 <= _days_before_year year.
Proof.
  intros Hy. unfold _days_before_year. cbv zeta.
  assert (H100 : (year - 1) / 100 <= (year - 1) / 4)
    by (apply Z.div_le_compat_l; lia).
  assert (H400 : 0 <= (year - 1) / 400) by (apply Z.div_pos; lia).
  lia.
Qed.

Lemma _days_before_month_nonneg (year month : Z) :
  1 <= month <= 12 -> 0 <= _days_before_month year month.
Proof.
  intros Hm. unfold _days_before_month.
  assert (Hcases : month = 1 \/ month = 2 \/ month = 3 \/ month = 4
                   \/ month = 5 \/ month = 6 \/ month = 7 \/ month = 8
                   \/ month = 9 \/ month = 10 \/ month = 11 \/ month = 12)
    by lia.
  repeat (destruct Hcases as [-> | Hcases]); try subst month;
    destruct (_is_leap year); vm_compute; discriminate.
Qed.

Lemma make_datetime_ordinal_pos (y m d hh mm ss : Z) (t : datetime) :
  make_datetime y m d hh mm ss = Some t -> 1 <= ordinal t.
Proof.
  unfold make_datetime.
  destruct (between MINYEAR MAXYEAR y) eqn:Hy; [|discriminate].
  destruct (between 1 12 m) eqn:Hm; [|discriminate].
  destruct (between 1 (_days_in_month y m) d) eqn:Hd; [|discriminate].
  cbn.
  match goal with |- (if ?c then _ else _) = _ -> _ => destruct c end;
    [|discriminate].
  intros H. inversion H. cbn.
  apply between_spec in Hy, Hm, Hd. unfold MINYEAR in Hy.
  pose proof (_days_before_year_nonneg y (proj1 Hy)).
  pose proof (_days_before_month_nonneg y m Hm).
  unfold _ymd2ord. lia.
Qed.

Lemma strptime_ordinal_pos (text : string) (fmt : Format) (t : datetime) :
  strptime text fmt = Some t -> 1 <= ordinal t.
Proof.
  unfold strptime. destruct fmt.
  - match goal with
    | |- match ?p with _ => _ end = _ -> _ =>
        destruct p as [[[[[y m] d] [[hh mm] ss]] rest]|]
    end; [|discriminate].
    destruct rest; [|discriminate].
    apply make_datetime_ordinal_pos.
  - destruct (re_date text) as [[[[y m] d] rest]|]; [|discriminate].
    destruct rest; [|discriminate].
    apply make_datetime_ordinal_pos.
Qed.

Lemma start_time_of_ordinal_pos (text : string) (st : datetime) :
  start_time_of text = Ok st -> 1 <= ordinal st.
Proof.
  intros H. apply start_time_of_cases in H as [H | [_ H]];
    eapply strptime_ordinal_pos; eassumption.
Qed.

(** ** The range check *)

Section RangeCheck.
Context {E : Env}.

(** With the same text for start and end, the end block either yields an
    effective end that the start does not exceed, or overflows the
    calendar on its last day. *)
Lemma end_window_same_text (text : string) (ticker : TickerModel)
    (st : datetime) :
  tk_end ticker = Some text ->
  start_time_of text = Ok st ->
  (exists et, end_window (Some text) ticker st = Ok (et, timestamp et))
  \/ (end_window (Some text) ticker st
      = Raise (OverflowError "date value out of range")
      /\ _MAXORDINAL <= ordinal st).
Proof.
  intros Hend Hstart.
  pose proof (start_time_of_ordinal_pos _ _ Hstart) as Hpos.
  apply start_time_of_cases in Hstart as [Hdt | [_ Hd]].
  - left. exists st.
    rewrite (end_window_checks _ _ st st Hend (end_time_of_datetime _ _ Hdt)).
    rewrite dt_gtb_irrefl. reflexivity.
  - pose proof (end_time_of_date _ _ Hd) as Hparse.
    destruct (add_days st 1) as [et|x] eqn:Hadd.
    + left. exists et.
      rewrite (end_window_checks _ _ st et Hend Hparse).
      apply add_days_ok in Hadd as [-> _].
      rewrite dt_gtb_earlier_day by (cbn; lia). reflexivity.
    + right. unfold end_window. rewrite Hend, Hparse. cbn.
      pose proof (add_days_raises _ _ _ Hadd) as ->. split; [reflexivity|].
      destruct (Z_lt_le_dec (ordinal st) _MAXORDINAL) as [Hlt|Hge]; [|exact Hge].
      rewrite add_days_in_range in Hadd by lia. discriminate Hadd.
Qed.

End RangeCheck.

(** C5 (as amended).  Let the interval pass [_input_validation] and the
    start parse.  If the start is later than the effective end, that is
    the parsed end, advanced by one day when it is date-only, the call
    fails with the range error and no exchange takes place.  If start and
    end are the same text, no range error is raised, and unless the date
    is the last day of the calendar the range check lets the call
    through. *)
Theorem history_range_check {E : Env}
    (self : Quote) (start e : string) (interval : string)
    (show_log_arg : bool) (count_back : option Z) (floating : Z)
    (ticker : TickerModel) (st : datetime) :
  _input_validation self start (Some e) interval = Ok ticker ->
  start_time_of start = Ok st ->
  (forall et,
      end_time_of e = Ok et -> dt_gtb st et = true ->
      history self start (Some e) interval show_log_arg count_back floating
      = ([], Raise (ValueError msg_range))
      /\ InvalidRangeError (ValueError msg_range))
  /\ (e = start ->
      (forall x,
          history_request self start (Some e) interval show_log_arg count_back
          = Raise x -> ~ InvalidRangeError x)
      /\ (ordinal st < _MAXORDINAL ->
          exists et, end_window (Some e) ticker st = Ok (et, timestamp et))).
Proof.
  intros Hval Hstart.
  pose proof (_input_validation_ok _ _ _ _ _ Hval)
    as (timeframe & Hnorm & Hguard & Hticker).
  assert (Hend : tk_end ticker = Some e) by (subst ticker; reflexivity).
  assert (Htext : tk_start ticker = start) by (subst ticker; reflexivity).
  split.
  - intros et Hparse Hgt. split; [|reflexivity].
    apply history_rejected.
    unfold history_request. rewrite Hval.
    unfold rbind at 1; cbv beta iota. rewrite Htext, Hstart.
    unfold rbind at 1; cbv beta iota.
    rewrite (end_window_checks _ _ st et Hend Hparse), Hgt. reflexivity.
  - intros ->.
    destruct (end_window_same_text _ _ _ Hend Hstart)
      as [[et Hwin] | [Hwin Hlast]].
    + split; [|intros _; exists et; exact Hwin].
      intros x Hreq. unfold history_request in Hreq.
      rewrite Hval in Hreq.
      unfold rbind at 1 in Hreq; cbv beta iota in Hreq.
      rewrite Htext, Hstart in Hreq.
      unfold rbind at 1 in Hreq; cbv beta iota in Hreq.
      rewrite Hwin in Hreq. cbn in Hreq.
      unfold getitem in Hreq.
      destruct (get (interval_map self) (tk_interval ticker));
        cbn in Hreq; inversion Hreq; subst.
      unfold InvalidRangeError. discriminate.
    + split; [|intros Hlt; lia].
      intros x Hreq. unfold history_request in Hreq.
      rewrite Hval in Hreq.
      unfold rbind at 1 in Hreq; cbv beta iota in Hreq.
      rewrite Htext, Hstart in Hreq.
      unfold rbind at 1 in Hreq; cbv beta iota in Hreq.
      rewrite Hwin in Hreq. cbn in Hreq.
      inversion Hreq; subst. unfold InvalidRangeError. discriminate.
Qed.

Lemma history_range_check_witness :
  (forall et,
      end_time_of "2024-01-01" = Ok et ->
      dt_gtb (mkdatetime 738888 0 0 0 0) et = true ->
      history (E := env_bars) acb_code
              "2024-01-03" (Some "2024-01-01") "1D" false None 2
      = ([], Raise (ValueError msg_range))
      /\ InvalidRangeError (ValueError msg_range))
  /\ ("2024-01-01" = "2024-01-03" ->
      (forall x,
          history_request (E := env_bars)
                          acb_code
                          "2024-01-03" (Some "2024-01-01") "1D" false None
          = Raise x -> ~ InvalidRangeError x)
      /\ (ordinal (mkdatetime 738888 0 0 0 0) < _MAXORDINAL ->
          exists et,
            end_window (E := env_bars)
                       (Some "2024-01-01")
                       (mkTickerModel (Some "ACB") "2024-01-03"
                                      (Some "2024-01-01") "ONE_DAY")
                       (mkdatetime 738888 0 0 0 0)
            = Ok (et, @timestamp env_bars et))).
Proof.
  apply (history_range_check (E := env_bars)
           acb_code "2024-01-03" "2024-01-01" "1D"
           false None 2); reflexivity.
Defined.

(** equal start and end pass the range check in either format *)
Example equal_start_and_end_pass :
  map (fun text =>
         match history_request (E := env_bars) acb_code
                 text (Some text) "1D" false None with
         | Ok req => Sent.to req
         | Raise _ => None
         end)
      ["2024-01-05"; "2024-01-05 14:45:00"]
  = [Some 1704499200; Some 1704465900].
Proof. reflexivity. Qed.

(** C5, the claim as stated fails: start 2024-01-02 and end 2024-01-01
    are both accepted as dates and the start is the later one, yet the
    range check passes (the end counts as 2024-01-02 00:00:00) and the
    request goes out. *)
Lemma history_range_check_counterexample :
  exists st en req,
    strptime "2024-01-02" FmtDate = Some st
    /\ strptime "2024-01-01" FmtDate = Some en
    /\ dt_gtb st en = true
    /\ history_request (E := env_bars)
                       acb_code
                       "2024-01-02" (Some "2024-01-01") "1D" false None
       = Ok req
    /\ requests (history (E := env_bars)
                         acb_code
                         "2024-01-02" (Some "2024-01-01") "1D" false None 2)
       = [req].
Proof.
  do 3 eexists. repeat split; reflexivity.
Qed.

(** ** The end timestamp *)

(** C6.  For a call that passes validation with an end given: if the end
    is a date in the date-only format, the effective end is that date
    advanced by exactly one day (the next ordinal, the same time of day,
    which is midnight) and the "to" entry is its epoch seconds; if the
    end is in the date-time format, the effective end is the parsed value
    itself. *)
Theorem history_end_timestamp {E : Env}
    (self : Quote) (start e : string) (interval : string)
    (show_log_arg : bool) (count_back : option Z) (req : Request) :
  history_request self start (Some e) interval show_log_arg count_back
  = Ok req ->
  (forall d,
      strptime e FmtDate = Some d ->
      end_time_of e = Ok (Sent.next_day d)
      /\ Sent.next_day d = midnight (ordinal d + 1)
      /\ Sent.to req = Some (timestamp (Sent.next_day d)))
  /\ (forall t,
      strptime e FmtDateTime = Some t ->
      end_time_of e = Ok t
      /\ Sent.to req = Some (timestamp t)).
Proof.
  intros Hreq.
  apply history_request_ok in Hreq
    as (timeframe & st & et & iv & _ & _ & _ & Hwin & _ & Hpayload).
  apply end_window_given in Hwin as (Hparse & _ & _); [|reflexivity].
  assert (Hto : Sent.to req = Some (timestamp et))
    by (unfold Sent.to; rewrite Hpayload; reflexivity).
  split.
  - intros d Hd.
    rewrite (end_time_of_date _ _ Hd) in Hparse.
    pose proof (add_days_ok _ _ _ Hparse) as [Het _]. subst et.
    pose proof (strptime_date_midnight _ _ Hd) as Hmid.
    repeat split.
    + rewrite (end_time_of_date _ _ Hd). exact Hparse.
    + rewrite Hmid. reflexivity.
    + exact Hto.
  - intros t Ht.
    rewrite (end_time_of_datetime _ _ Ht) in Hparse. inversion Hparse; subst.
    split; [apply end_time_of_datetime; exact Ht | exact Hto].
Qed.

Lemma history_end_timestamp_witness :
  exists req,
    history_request (E := env_bars) acb_code
                    "2024-01-01" (Some "2024-01-05") "1D" false None
    = Ok req
    /\ (forall d,
           strptime "2024-01-05" FmtDate = Some d ->
           end_time_of "2024-01-05" = Ok (Sent.next_day d)
           /\ Sent.next_day d = midnight (ordinal d + 1)
           /\ Sent.to req = Some (@timestamp env_bars (Sent.next_day d)))
    /\ (forall t,
           strptime "2024-01-05" FmtDateTime = Some t ->
           end_time_of "2024-01-05" = Ok t
           /\ Sent.to req = Some (@timestamp env_bars t)).
Proof.
  eexists. split; [reflexivity|].
  apply (history_end_timestamp (E := env_bars) acb_code
           "2024-01-01" "2024-01-05" "1D" false None).
  reflexivity.
Defined.

(** The end 2024-01-05 goes out as 2024-01-06 00:00:00, the end
    2024-01-05 00:00:00 as itself (epoch seconds of a UTC clock). *)
Example end_stamp_of_date_only_end :
  option_map Sent.to
    (match history_request (E := env_bars) acb_code
             "2024-01-01" (Some "2024-01-05") "1D" false None with
     | Ok req => Some req | Raise _ => None end)
  = Some (Some 1704499200).
Proof. reflexivity. Qed.

Example end_stamp_of_date_time_end :
  option_map Sent.to
    (match history_request (E := env_bars) acb_code
             "2024-01-01" (Some "2024-01-05 00:00:00") "1D" false None with
     | Ok req => Some req | Raise _ => None end)
  = Some (Some 1704412800).
Proof. reflexivity. Qed.

(** ** Business days *)

Lemma days_from_spec (a : Z) (n : nat) (o : Z) :
  In o (days_from a n) <-> a <= o < a + Z.of_nat n.
Proof.
  unfold days_from. rewrite in_map_iff. split.
  - intros (k & <- & Hk). apply in_seq in Hk. lia.
  - intros Ho. exists (Z.to_nat (o - a)). split; [lia|].
    apply in_seq. lia.
Qed.

(** The members of [bdate_range s e] are the midnights of the days from
    the date of [s] to the date of [e] that fall on Monday to Friday. *)
Lemma bdate_range_spec (s e t : datetime) :
  In t (bdate_range s e)
  <-> exists o, t = midnight o
                /\ ordinal s <= o <= ordinal e
                /\ 0 <= weekday t < 5.
Proof.
  unfold bdate_range. rewrite in_map_iff. split.
  - intros (o & <- & Ho). apply filter_In in Ho as [Hrange Hday].
    apply days_from_spec in Hrange. unfold is_business_day in Hday.
    apply Z.ltb_lt in Hday.
    exists o. repeat split; try lia.
    unfold weekday. apply Z.mod_pos_bound. lia.
  - intros (o & -> & Hrange & Hday).
    exists o. split; [reflexivity|]. apply filter_In. split.
    + apply days_from_spec. lia.
    + unfold is_business_day. apply Z.ltb_lt. lia.
Qed.

(** the week of 2024-01-01: Monday, and five business days up to the
    Saturday that a date-only end of 2024-01-05 becomes *)
Example bdate_range_first_week_2024 :
  weekday (midnight 738886) = 0
  /\ weekday (midnight 738890) = 4
  /\ len (bdate_range (midnight 738886) (midnight 738891)) = 5.
Proof. repeat split. Qed.

(** ** Business days, in the words of the spec *)

Lemma NoDup_days_from (o : Z) (n : nat) : NoDup (days_from o n).
Proof.
  unfold days_from. revert o. induction n as [|n IH]; intros o;
    [constructor|].
  cbn [seq map]. constructor.
  - rewrite <- seq_shift, map_map. intros Hin.
    apply in_map_iff in Hin as (k & Hk & _). lia.
  - rewrite <- seq_shift, map_map.
    replace (map (fun x => o + Z.of_nat (S x)) (seq 0 n))
      with (map (fun k => (o + 1) + Z.of_nat k) (seq 0 n));
      [apply IH|].
    apply map_ext. intros k. lia.
Qed.

Lemma weekday_range (o : Z) : 0 <= weekday (midnight o) < 7.
Proof. unfold weekday. apply Z.mod_pos_bound. lia. Qed.

(** What the code counts is what the spec describes: the index that
    [pd.bdate_range] returns has as many entries as there are days from
    the start date to the end date that are no Saturday and no Sunday. *)
Lemma bdate_range_counts_business_days (st et : datetime) :
  Window.business_days st et (len (bdate_range st et)).
Proof.
  exists (filter is_business_day
                 (days_from (ordinal st)
                            (Z.to_nat (ordinal et - ordinal st + 1)))).
  split; [apply NoDup_filter, NoDup_days_from|]. split.
  - intros o. rewrite filter_In, days_from_spec.
    unfold is_business_day. rewrite Z.ltb_lt.
    pose proof (weekday_range o). split.
    + intros [Hrange Hday]. repeat split; lia.
    + intros [Hrange [H5 H6]]. split; lia.
  - unfold len, bdate_range. rewrite length_map. reflexivity.
Qed.

(** the words of the spec fix the number *)
Lemma business_days_unique (st et : datetime) (n m : Z) :
  Window.business_days st et n -> Window.business_days st et m -> n = m.
Proof.
  intros (d1 & Hnd1 & Hin1 & ->) (d2 & Hnd2 & Hin2 & ->).
  f_equal. apply Nat.le_antisymm; apply NoDup_incl_length; try assumption;
    intros o Ho.
  - apply Hin2, Hin1, Ho.
  - apply Hin1, Hin2, Ho.
Qed.

(** five business days from Monday 2024-01-01 to Saturday 2024-01-06 *)
Example business_days_first_week_2024 :
  Window.business_days (midnight 738886) (midnight 738891) 5.
Proof. exact (bdate_range_counts_business_days _ _). Qed.

(** ** The count-back *)

(** C2.  For a call that passes validation with no count_back and an end
    given, the "countBack" entry is computed from [n], the number of days
    from the start date to the effective end date, both included, that
    are neither Saturday nor Sunday: [n + 1] when the provider code of
    the timeframe is ONE_DAY, [n * 6.5 + 1] when it is ONE_HOUR,
    [n * 6.5 * 60 + 1] when it is ONE_MINUTE and 1000 for any other code;
    with start 2024-01-01, end 2024-01-05 and the daily code [n] is 5 and
    the entry is 6. *)
Theorem history_count_back_estimate {E : Env}
    (self : Quote) (start e : string) (interval : string)
    (show_log_arg : bool) (req : Request) :
  history_request self start (Some e) interval show_log_arg None = Ok req ->
  exists st et code n,
    start_time_of start = Ok st
    /\ end_time_of e = Ok et
    /\ Sent.time_frame req = Some code
    /\ Window.business_days st et n
    /\ (code = "ONE_DAY" -> Sent.count_back req = Some (PyInt (n + 1)))
    /\ (code = "ONE_HOUR" ->
        Sent.count_back req = Some (PyFloat (inject_Z n * 6.5 + 1)%Q))
    /\ (code = "ONE_MINUTE" ->
        Sent.count_back req = Some (PyFloat (inject_Z n * 6.5 * 60 + 1)%Q))
    /\ (code <> "ONE_DAY" -> code <> "ONE_HOUR" -> code <> "ONE_MINUTE" ->
        Sent.count_back req = Some (PyInt 1000))
    /\ (start = "2024-01-01" -> e = "2024-01-05" ->
        n = 5
        /\ (code = "ONE_DAY" -> Sent.count_back req = Some (PyInt 6))).
Proof.
  intros Hreq.
  apply history_request_ok in Hreq
    as (timeframe & st & et & iv & _ & _ & Hstart & Hwin & _ & Hpayload).
  apply end_window_given in Hwin as (Hparse & _ & _); [|reflexivity].
  exists st, et, iv, (len (bdate_range st et)).
  assert (Hcb : Sent.count_back req
                = Some (auto_count_back_of None (Some e) iv (bdate_range st et)))
    by (unfold Sent.count_back; rewrite Hpayload; reflexivity).
  assert (Htf : Sent.time_frame req = Some iv)
    by (unfold Sent.time_frame; rewrite Hpayload; reflexivity).
  assert (Hday : iv = "ONE_DAY" ->
                 Sent.count_back req
                 = Some (PyInt (len (bdate_range st et) + 1)))
    by (intros ->; exact Hcb).
  split; [exact Hstart|]. split; [exact Hparse|]. split; [exact Htf|].
  split; [apply bdate_range_counts_business_days|].
  split; [exact Hday|].
  split; [intros ->; exact Hcb|].
  split; [intros ->; exact Hcb|].
  split.
  - intros Hd Hh Hm. rewrite Hcb. unfold auto_count_back_of.
    apply String.eqb_neq in Hd, Hh, Hm. rewrite Hd, Hh, Hm. reflexivity.
  - intros -> ->.
    vm_compute in Hstart. vm_compute in Hparse.
    inversion Hstart; inversion Hparse; subst.
    split; [reflexivity|].
    intros Hcode. rewrite (Hday Hcode). reflexivity.
Qed.

Lemma history_count_back_estimate_witness :
  exists req,
    history_request (E := env_bars) acb_code
                    "2024-01-01" (Some "2024-01-05") "1D" false None
    = Ok req
    /\ exists st et code n,
        start_time_of "2024-01-01" = Ok st
        /\ end_time_of "2024-01-05" = Ok et
        /\ Sent.time_frame req = Some code
        /\ Window.business_days st et n
        /\ (code = "ONE_DAY" -> Sent.count_back req = Some (PyInt (n + 1)))
        /\ (code = "ONE_HOUR" ->
            Sent.count_back req = Some (PyFloat (inject_Z n * 6.5 + 1)%Q))
        /\ (code = "ONE_MINUTE" ->
            Sent.count_back req
            = Some (PyFloat (inject_Z n * 6.5 * 60 + 1)%Q))
        /\ (code <> "ONE_DAY" -> code <> "ONE_HOUR" -> code <> "ONE_MINUTE" ->
            Sent.count_back req = Some (PyInt 1000))
        /\ ("2024-01-01" = "2024-01-01" -> "2024-01-05" = "2024-01-05" ->
            n = 5
            /\ (code = "ONE_DAY" -> Sent.count_back req = Some (PyInt 6))).
Proof.
  eexists. split; [reflexivity|].
  apply (history_count_back_estimate (E := env_bars) acb_code
           "2024-01-01" "2024-01-05" "1D" false).
  reflexivity.
Defined.

(** the daily estimate for the week of 2024-01-01, on the whole call *)
Example history_count_back_daily :
  option_map Sent.count_back
    (match history_request (E := env_bars) acb_code
             "2024-01-01" (Some "2024-01-05") "1D" false None with
     | Ok req => Some req | Raise _ => None end)
  = Some (Some (PyInt 6)).
Proof. reflexivity. Qed.

(** the hourly and the minute estimate for the same week *)
Example history_count_back_hourly :
  exists q,
    option_map Sent.count_back
      (match history_request (E := env_bars) acb_code
               "2024-01-01" (Some "2024-01-05") "1H" false None with
       | Ok req => Some req | Raise _ => None end)
    = Some (Some (PyFloat q))
    /\ (q == 33.5)%Q.
Proof. eexists. split; reflexivity. Qed.

Example history_count_back_minute :
  exists q,
    option_map Sent.count_back
      (match history_request (E := env_bars) acb_code
               "2024-01-01" (Some "2024-01-05") "1m" false None with
       | Ok req => Some req | Raise _ => None end)
    = Some (Some (PyFloat q))
    /\ (q == 1951)%Q.
Proof. eexists. split; reflexivity. Qed.

Example history_count_back_weekly :
  option_map Sent.count_back
    (match history_request (E := env_bars) acb_code
             "2024-01-01" (Some "2024-01-05") "1W" false None with
     | Ok req => Some req | Raise _ => None end)
  = Some (Some (PyInt 1000)).
Proof. reflexivity. Qed.

(** C3 (as amended).  For a call that passes validation: an explicit
    count_back is sent verbatim; with neither count_back nor end the
    entry is the integer 1000; with no count_back and an end given, [n]
    being the number of days from the start date to the effective end
    date that are neither Saturday nor Sunday, the entry is the integer
    [n + 1] for the provider code ONE_DAY, the integer 1000 for any code
    other than ONE_DAY, ONE_HOUR and ONE_MINUTE, the float [n * 6.5 + 1]
    for ONE_HOUR and the float [n * 6.5 * 60 + 1] for ONE_MINUTE.  So the
    entry is an [int] except for an estimate on the hourly or the minute
    code. *)
Theorem history_count_back_kind {E : Env}
    (self : Quote) (start : string) (end_ : option string) (interval : string)
    (show_log_arg : bool) (count_back : option Z) (req : Request) :
  history_request self start end_ interval show_log_arg count_back = Ok req ->
  exists cb code,
    Sent.count_back req = Some cb
    /\ Sent.time_frame req = Some code
    /\ (forall c, count_back = Some c -> cb = PyInt c)
    /\ (count_back = None -> end_ = None -> cb = PyInt 1000)
    /\ (forall e,
           count_back = None -> end_ = Some e ->
           exists st et n,
             start_time_of start = Ok st
             /\ end_time_of e = Ok et
             /\ Window.business_days st et n
             /\ (code = "ONE_DAY" -> cb = PyInt (n + 1))
             /\ (code = "ONE_HOUR" -> cb = PyFloat (inject_Z n * 6.5 + 1)%Q)
             /\ (code = "ONE_MINUTE" ->
                 cb = PyFloat (inject_Z n * 6.5 * 60 + 1)%Q)
             /\ (code <> "ONE_DAY" -> code <> "ONE_HOUR" ->
                 code <> "ONE_MINUTE" -> cb = PyInt 1000))
    /\ (is_int cb = false <->
        count_back = None /\ end_ <> None
        /\ (code = "ONE_HOUR" \/ code = "ONE_MINUTE")).
Proof.
  intros Hreq.
  apply history_request_ok in Hreq
    as (timeframe & st & et & iv & _ & _ & Hstart & Hwin & _ & Hpayload).
  exists (auto_count_back_of count_back end_ iv (bdate_range st et)), iv.
  split; [unfold Sent.count_back; rewrite Hpayload; reflexivity|].
  split; [unfold Sent.time_frame; rewrite Hpayload; reflexivity|].
  split; [intros c ->; destruct end_; reflexivity|].
  split; [intros -> ->; reflexivity|].
  split.
  { intros e -> ->.
    apply end_window_given in Hwin as (Hparse & _ & _); [|reflexivity].
    exists st, et, (len (bdate_range st et)).
    split; [exact Hstart|]. split; [exact Hparse|].
    split; [apply bdate_range_counts_business_days|].
    split; [intros ->; reflexivity|].
    split; [intros ->; reflexivity|].
    split; [intros ->; reflexivity|].
    intros Hd Hh Hm. unfold auto_count_back_of.
    apply String.eqb_neq in Hd, Hh, Hm. rewrite Hd, Hh, Hm. reflexivity. }
  unfold auto_count_back_of.
  destruct count_back as [c|], end_ as [e|]; cbn.
  - split; [discriminate | intros (H & _); discriminate H].
  - split; [discriminate | intros (H & _); discriminate H].
  - destruct (String.eqb_spec iv "ONE_DAY") as [->|Hd]; cbn.
    { split; [discriminate | intros (_ & _ & [H|H]); discriminate H]. }
    destruct (String.eqb_spec iv "ONE_HOUR") as [->|Hh]; cbn.
    { split; [intros _|reflexivity]. repeat split; auto. discriminate. }
    destruct (String.eqb_spec iv "ONE_MINUTE") as [->|Hm]; cbn.
    { split; [intros _|reflexivity]. repeat split; auto. discriminate. }
    split; [discriminate | intros (_ & _ & [H|H]); contradiction].
  - split; [discriminate | intros (_ & H & _); contradiction].
Qed.

Lemma history_count_back_kind_witness :
  exists req,
    history_request (E := env_bars) acb_code
                    "2024-01-01" (Some "2024-01-05") "1H" false None
    = Ok req
    /\ exists cb code,
        Sent.count_back req = Some cb
        /\ Sent.time_frame req = Some code
        /\ (forall c, @None Z = Some c -> cb = PyInt c)
        /\ (@None Z = None -> Some "2024-01-05" = None -> cb = PyInt 1000)
        /\ (forall e,
               @None Z = None -> Some "2024-01-05" = Some e ->
               exists st et n,
                 start_time_of "2024-01-01" = Ok st
                 /\ end_time_of e = Ok et
                 /\ Window.business_days st et n
                 /\ (code = "ONE_DAY" -> cb = PyInt (n + 1))
                 /\ (code = "ONE_HOUR" ->
                     cb = PyFloat (inject_Z n * 6.5 + 1)%Q)
                 /\ (code = "ONE_MINUTE" ->
                     cb = PyFloat (inject_Z n * 6.5 * 60 + 1)%Q)
                 /\ (code <> "ONE_DAY" -> code <> "ONE_HOUR" ->
                     code <> "ONE_MINUTE" -> cb = PyInt 1000))
        /\ (is_int cb = false <->
            @None Z = None /\ Some "2024-01-05" <> None
            /\ (code = "ONE_HOUR" \/ code = "ONE_MINUTE")).
Proof.
  eexists. split; [reflexivity|].
  apply (history_count_back_kind (E := env_bars) acb_code
           "2024-01-01" (Some "2024-01-05") "1H" false None).
  reflexivity.
Defined.

(** an explicit count goes out as it is, also with an end and on the
    hourly code *)
Example history_count_back_explicit :
  option_map Sent.count_back
    (match history_request (E := env_bars) acb_code
             "2024-01-01" (Some "2024-01-05") "1H" false (Some 250) with
     | Ok req => Some req | Raise _ => None end)
  = Some (Some (PyInt 250)).
Proof. reflexivity. Qed.

(** C3, the claim as stated fails: for the hourly timeframe over the
    week of 2024-01-01 the entry sent is the float 33.5, which is not an
    integer, neither by type nor by value. *)
Lemma history_count_back_counterexample :
  exists req q,
    requests (history (E := env_bars) acb_code
                      "2024-01-01" (Some "2024-01-05") "1H" false None 2)
    = [req]
    /\ Sent.count_back req = Some (PyFloat q)
    /\ is_int (PyFloat q) = false
    /\ (q == 33.5)%Q
    /\ ~ Sent.integral (PyFloat q).
Proof.
  do 2 eexists.
  split; [reflexivity|]. split; [reflexivity|]. split; [reflexivity|].
  assert (Hq : (inject_Z 5 * 6.5 + 1 == 33.5)%Q) by reflexivity.
  split; [exact Hq|].
  intros [z Hz]. rewrite Hq in Hz.
  unfold Qeq in Hz. cbn in Hz. lia.
Qed.

(** ** The interval guard *)

Section IntervalGuard.
Context {E : Env}.

(** The guard of [_input_validation] asks whether the normalised
    timeframe equals one of the VALUES of the interval map. *)
Lemma _input_validation_guard (self : Quote) (start : string)
    (end_ : option string) (interval : string) (timeframe : TimeFrame) :
  normalize_interval interval = Ok timeframe ->
  _input_validation self start end_ interval
  = if existsb (tf_eq timeframe) (values (interval_map self))
    then Ok (mkTickerModel (symbol self) start end_ (tf_str timeframe))
    else Raise (ValueError (msg_interval (tf_format timeframe))).
Proof.
  intros Hnorm. unfold _input_validation. rewrite Hnorm. cbn.
  destruct (existsb (tf_eq timeframe) (values (interval_map self)));
    reflexivity.
Qed.

(** A timeframe that is a key of the map but equals none of its values
    is turned away, although line 130 would find its provider code. *)
Lemma history_mapped_timeframe_rejected (self : Quote) (start : string)
    (end_ : option string) (interval : string) (show_log_arg : bool)
    (count_back : option Z) (floating : Z) (timeframe : TimeFrame) :
  normalize_interval interval = Ok timeframe ->
  existsb (tf_eq timeframe) (values (interval_map self)) = false ->
  history self start end_ interval show_log_arg count_back floating
  = ([], Raise (ValueError (msg_interval (tf_format timeframe)))).
Proof.
  intros Hnorm Hguard. apply history_rejected.
  unfold history_request.
  rewrite (_input_validation_guard _ _ _ _ _ Hnorm), Hguard. reflexivity.
Qed.

(** A timeframe that equals a value of the map but is not one of its
    keys passes the guard, and the lookup of line 130 ends the call in
    [KeyError], not in the message that lists the choices. *)
Lemma history_unmapped_timeframe_KeyError (self : Quote) (start : string)
    (end_ : option string) (interval : string) (show_log_arg : bool)
    (count_back : option Z) (floating : Z) (timeframe : TimeFrame)
    (st : datetime) (window : datetime * Z) :
  normalize_interval interval = Ok timeframe ->
  existsb (tf_eq timeframe) (values (interval_map self)) = true ->
  get (interval_map self) (tf_str timeframe) = None ->
  start_time_of start = Ok st ->
  end_window end_ (mkTickerModel (symbol self) start end_ (tf_str timeframe)) st
  = Ok window ->
  history self start end_ interval show_log_arg count_back floating
  = ([], Raise (KeyError (tf_str timeframe))).
Proof.
  intros Hnorm Hguard Hget Hstart Hwin. apply history_rejected.
  unfold history_request.
  rewrite (_input_validation_guard _ _ _ _ _ Hnorm), Hguard.
  unfold rbind at 1; cbv beta iota. cbn [tk_start]. rewrite Hstart.
  unfold rbind at 1; cbv beta iota. rewrite Hwin.
  unfold rbind at 1; cbv beta iota. cbn [tk_interval].
  unfold getitem. rewrite Hget. reflexivity.
Qed.

End IntervalGuard.

Example history_unmapped_timeframe_example :
  history (E := env_passthrough) acb_spec
          "2024-01-01" (Some "2024-01-05") "ONE_DAY" false None 2
  = ([], Raise (KeyError "ONE_DAY")).
Proof. reflexivity. Qed.

(** C4.  What the code does where the claim expects the lookup to
    succeed.  Take the timeframe type and the interval map as the spec
    describes them.  Every interval of the recognised set normalises to a
    timeframe that is a key of the interval map, and for every one of
    them [history] fails in [_input_validation] with the invalid-interval
    message, before any exchange: the guard looks the timeframe up among
    the values of the map. *)
Theorem history_rejects_recognised_intervals :
  Forall
    (fun interval =>
       exists timeframe code,
         @normalize_interval env_spec interval = Ok timeframe
         /\ in_keys (@tf_str env_spec timeframe) (interval_map acb_spec) = true
         /\ getitem (interval_map acb_spec) (@tf_str env_spec timeframe)
            = Ok code
         /\ history (E := env_spec) acb_spec
                    "2024-01-01" (Some "2024-01-05") interval false None 2
            = ([], Raise (ValueError (msg_interval interval)))
         /\ InvalidIntervalError (ValueError (msg_interval interval)))
    ["1m"; "5m"; "15m"; "30m"; "1H"; "1D"; "1W"; "1M"].
Proof.
  repeat constructor;
    (do 2 eexists; repeat split; try reflexivity; eexists; reflexivity).
Qed.

(** ** Construction *)

Lemma in_keys_get {V : Type} (d : dict V) (k : string) :
  in_keys k d = match get d k with Some _ => true | None => false end.
Proof.
  unfold in_keys. induction d as [|[k' v] d IH]; cbn; [reflexivity|].
  destruct (String.eqb k k'); cbn; [reflexivity | exact IH].
Qed.

Lemma prefix_app (n b : string) : String.prefix n (n ++ b) = true.
Proof.
  induction n as [|a n IH]; cbn; [destruct b; reflexivity|].
  destruct (ascii_dec a a) as [_|Hne]; [exact IH | contradiction].
Qed.

Lemma str_in_prefix (n h : string) :
  String.prefix n h = true -> str_in n h = true.
Proof.
  intros Hpre. destruct h; unfold str_in; fold str_in; rewrite Hpre;
    reflexivity.
Qed.

Lemma str_in_app_l (n b : string) : str_in n (n ++ b) = true.
Proof. apply str_in_prefix, prefix_app. Qed.

Lemma str_in_app_r (n a h : string) :
  str_in n h = true -> str_in n (a ++ h) = true.
Proof.
  intros Hin. induction a as [|c a IH]; cbn; [exact Hin|].
  rewrite IH. apply orb_true_r.
Qed.

Lemma str_in_refl (n : string) : str_in n n = true.
Proof.
  replace n with (n ++ "") at 2; [apply str_in_app_l|].
  induction n as [|c n IH]; cbn; [reflexivity | rewrite IH; reflexivity].
Qed.

(** every joined item occurs in the joined text *)
Lemma str_in_join (sep : string) (l : list string) (x : string) :
  In x l -> str_in x (join sep l) = true.
Proof.
  induction l as [|y l IH]; intros Hin; [destruct Hin|].
  destruct l as [|z l].
  - destruct Hin as [->|[]]. cbn. apply str_in_refl.
  - change (join sep (y :: z :: l)) with (y ++ sep ++ join sep (z :: l)).
    destruct Hin as [->|Hin].
    + apply str_in_app_l.
    + apply str_in_app_r, str_in_app_r, IH, Hin.
Qed.

(** the unknown-index message names every alias *)
Lemma msg_index_lists_aliases (symbol : option string)
    (aliases : list string) (alias : string) :
  In alias aliases -> str_in alias (msg_index symbol aliases) = true.
Proof.
  intros Hin. unfold msg_index.
  repeat apply str_in_app_r. apply str_in_join, Hin.
Qed.

(** C7.  Let the validator accept the symbol as [s], with "INDEX" in it.
    If [s] is a key of the index table, construction succeeds and the
    instance holds the internal code the table gives for [s]; if not,
    construction fails with the unknown-index error, whose message names
    [s] and every alias of the table.  Either way no exchange takes
    place. *)
Theorem init_resolves_index_symbol {E : Env}
    (symbol_arg : string) (random_agent : bool)
    (proxy_config_arg : option ProxyConfig) (show_log_arg : bool)
    (s a : string) :
  validate_symbol symbol_arg = Ok s ->
  get_asset_type s = Ok a ->
  str_in "INDEX" s = true ->
  match get _INDEX_MAPPING s with
  | Some code =>
      exists self,
        outcome (__init__ symbol_arg random_agent proxy_config_arg show_log_arg)
        = Ok self
        /\ symbol self = Some code
  | None =>
      outcome (__init__ symbol_arg random_agent proxy_config_arg show_log_arg)
      = Raise (ValueError (msg_index (Some s) (keys _INDEX_MAPPING)))
      /\ UnknownIndexError (ValueError (msg_index (Some s) (keys _INDEX_MAPPING)))
      /\ str_in s (msg_index (Some s) (keys _INDEX_MAPPING)) = true
      /\ forall alias,
          In alias (keys _INDEX_MAPPING) ->
          str_in alias (msg_index (Some s) (keys _INDEX_MAPPING)) = true
  end
  /\ requests (__init__ symbol_arg random_agent proxy_config_arg show_log_arg)
     = [].
Proof.
  intros Hsym Hasset Hindex.
  unfold __init__. rewrite Hsym. cbn -[msg_index str_in].
  rewrite Hasset. cbn -[msg_index str_in]. rewrite Hindex.
  unfold _index_validation. cbn [symbol str_opt].
  rewrite in_keys_get. unfold getitem.
  destruct (get _INDEX_MAPPING s) as [code|] eqn:Hget.
  - destruct show_log_arg; cbn -[msg_index str_in];
      (split; [eexists; split; reflexivity|reflexivity]).
  - destruct show_log_arg; cbn -[msg_index str_in];
      (split; [|reflexivity]);
      (split; [reflexivity|]);
      (split; [do 2 eexists; reflexivity|]);
      (split; [unfold msg_index; apply str_in_app_r; apply str_in_app_l|]);
      intros alias Hin; apply msg_index_lists_aliases, Hin.
Qed.

Lemma init_resolves_index_symbol_witness :
  match get (@_INDEX_MAPPING env_bars) "VN30INDEX" with
  | Some code =>
      exists self,
        outcome (__init__ (E := env_bars) "VN30INDEX" false None true)
        = Ok self
        /\ symbol self = Some code
  | None =>
      outcome (__init__ (E := env_bars) "VN30INDEX" false None true)
      = Raise (ValueError (msg_index (Some "VN30INDEX")
                                     (keys (@_INDEX_MAPPING env_bars))))
      /\ UnknownIndexError
           (ValueError (msg_index (Some "VN30INDEX")
                                  (keys (@_INDEX_MAPPING env_bars))))
      /\ str_in "VN30INDEX"
                (msg_index (Some "VN30INDEX")
                           (keys (@_INDEX_MAPPING env_bars))) = true
      /\ forall alias,
          In alias (keys (@_INDEX_MAPPING env_bars)) ->
          str_in alias (msg_index (Some "VN30INDEX")
                                  (keys (@_INDEX_MAPPING env_bars))) = true
  end
  /\ requests (__init__ (E := env_bars) "VN30INDEX" false None true) = [].
Proof.
  apply (init_resolves_index_symbol (E := env_bars)
           "VN30INDEX" false None true "VN30INDEX" "index");
    reflexivity.
Defined.

(** an alias of the table is replaced by its internal code, another
    symbol with the marker is turned away with the list of aliases *)
Example init_known_index :
  option_map symbol
    (match outcome (__init__ (E := env_bars) "HNXINDEX" false None true) with
     | Ok self => Some self | Raise _ => None end)
  = Some (Some "HNXIndex").
Proof. reflexivity. Qed.

Example init_unknown_index :
  outcome (__init__ (E := env_bars) "VN30INDEX" false None true)
  = Raise (ValueError
      "Không tìm thấy mã chứng khoán VN30INDEX. Các giá trị hợp lệ: VNINDEX, HNXINDEX, UPCOMINDEX").
Proof. reflexivity. Qed.

(** ** The market gate *)

Lemma preparing_spec (status : MarketStatus) :
  preparing status = true
  <-> is_trading_hour status = false /\ data_status status = "preparing".
Proof.
  unfold preparing.
  rewrite andb_true_iff, negb_true_iff, String.eqb_eq. tauto.
Qed.

(** case analysis on what the collaborators of a call answer *)
Ltac run_collaborators :=
  repeat match goal with
         | |- context [send_request ?r] =>
             destruct (send_request r); cbn
         | |- context [intraday_to_df ?a ?b ?c ?d ?e ?f] =>
             destruct (intraday_to_df a b c d e f); cbn
         | |- context [getitem_list ?df ?labels] =>
             destruct (getitem_list df labels); cbn
         end;
  try reflexivity.

Section MarketGate.
Context {E : Env}.

(** an instance that [__init__] returned holds a symbol *)
Lemma init_symbol (symbol_arg : string) (random_agent : bool)
    (proxy_config_arg : option ProxyConfig) (show_log_arg : bool)
    (self : Quote) :
  outcome (__init__ symbol_arg random_agent proxy_config_arg show_log_arg)
  = Ok self ->
  exists s, symbol self = Some s.
Proof.
  unfold __init__.
  destruct (validate_symbol symbol_arg) as [s|]; cbn; [|discriminate].
  destruct (get_asset_type s) as [a|]; cbn; [|discriminate].
  destruct (str_in "INDEX" s).
  - destruct (_index_validation _) as [s'|];
      destruct show_log_arg; cbn; intros H; inversion H; subst;
        eexists; reflexivity.
  - destruct show_log_arg; cbn; intros H; inversion H; subst;
      eexists; reflexivity.
Qed.

Lemma intraday_closed (self : Quote) (page_size : option Z)
    (last_time : option string) (show_log_arg : bool) :
  preparing (trading_hours None) = true ->
  intraday self page_size last_time show_log_arg
  = ([], Raise (ValueError (msg_preparing (time (trading_hours None))))).
Proof.
  intros Hgate. unfold intraday. rewrite Hgate. reflexivity.
Qed.

Lemma price_depth_closed (self : Quote) (show_log_arg : bool) :
  preparing (trading_hours None) = true ->
  price_depth self show_log_arg
  = ([], Raise (ValueError (msg_preparing (time (trading_hours None))))).
Proof.
  intros Hgate. unfold price_depth. rewrite Hgate. reflexivity.
Qed.

Lemma intraday_open (self : Quote) (s : string) (n : Z)
    (last_time : option string) (show_log_arg : bool) :
  preparing (trading_hours None) = false ->
  symbol self = Some s ->
  exists req,
    requests (intraday self (Some n) last_time show_log_arg) = [req]
    /\ rq_payload req = TicksPayload (Some s) n last_time.
Proof.
  intros Hgate Hsym. unfold intraday. rewrite Hgate, Hsym.
  exists (mkRequest (base_url self ++ _INTRADAY_URL ++ "/LEData/getAll")
                    (headers self) "POST" (TicksPayload (Some s) n last_time)
                    show_log_arg
                    (proxy_list (proxy_config self))
                    (proxy_mode (proxy_config self))
                    (request_mode (proxy_config self))
                    (hf_proxy_url (proxy_config self))).
  split; [|reflexivity].
  unfold call.
  destruct (n >? 30000); cbn; run_collaborators.
Qed.

Lemma price_depth_open (self : Quote) (s : string) (show_log_arg : bool) :
  preparing (trading_hours None) = false ->
  symbol self = Some s ->
  exists req,
    requests (price_depth self show_log_arg) = [req]
    /\ rq_payload req = DepthPayload (Some s).
Proof.
  intros Hgate Hsym. unfold price_depth. rewrite Hgate, Hsym.
  exists (mkRequest (base_url self ++ _INTRADAY_URL
                     ++ "/AccumulatedPriceStepVol/getSymbolData")
                    (headers self) "POST" (DepthPayload (Some s))
                    show_log_arg
                    (proxy_list (proxy_config self))
                    (proxy_mode (proxy_config self))
                    (request_mode (proxy_config self))
                    (hf_proxy_url (proxy_config self))).
  split; [|reflexivity].
  unfold call. cbn. run_collaborators.
Qed.

(** a page size of [None] never reaches the transport *)
Lemma intraday_page_size_None (self : Quote) (s : string)
    (last_time : option string) (show_log_arg : bool) :
  preparing (trading_hours None) = false ->
  symbol self = Some s ->
  intraday self None last_time show_log_arg
  = ([], Raise (TypeError
       "'>' not supported between instances of 'NoneType' and 'int'")).
Proof.
  intros Hgate Hsym. unfold intraday. rewrite Hgate, Hsym. reflexivity.
Qed.

End MarketGate.

(** C8.  For an instance that construction returned and whatever the
    market-hours oracle answers: if it reports [is_trading_hour] false
    and [data_status] "preparing", both [intraday] and [price_depth] fail
    with the market-unavailable error carrying the oracle's time, and no
    request is issued; for every other answer each of them issues its
    request.  The call goes without a request exactly in the first
    case. *)
Theorem market_gate {E : Env}
    (symbol_arg : string) (random_agent : bool)
    (proxy_config_arg : option ProxyConfig) (show_log0 : bool)
    (self : Quote) (n : Z) (last_time : option string)
    (show_log_arg : bool) :
  outcome (__init__ symbol_arg random_agent proxy_config_arg show_log0)
  = Ok self ->
  (is_trading_hour (trading_hours None) = false
   /\ data_status (trading_hours None) = "preparing" ->
   intraday self (Some n) last_time show_log_arg
   = ([], Raise (ValueError (msg_preparing (time (trading_hours None)))))
   /\ price_depth self show_log_arg
      = ([], Raise (ValueError (msg_preparing (time (trading_hours None)))))
   /\ MarketUnavailableError
        (ValueError (msg_preparing (time (trading_hours None)))))
  /\ (~ (is_trading_hour (trading_hours None) = false
         /\ data_status (trading_hours None) = "preparing") ->
      (exists req,
          requests (intraday self (Some n) last_time show_log_arg) = [req])
      /\ (exists req, requests (price_depth self show_log_arg) = [req]))
  /\ (requests (intraday self (Some n) last_time show_log_arg) = [] <->
      is_trading_hour (trading_hours None) = false
      /\ data_status (trading_hours None) = "preparing")
  /\ (requests (price_depth self show_log_arg) = [] <->
      is_trading_hour (trading_hours None) = false
      /\ data_status (trading_hours None) = "preparing").
Proof.
  intros Hinit. apply init_symbol in Hinit as [s Hsym].
  assert (Hopen : preparing (trading_hours None) = false ->
                  (exists req,
                      requests (intraday self (Some n) last_time show_log_arg)
                      = [req])
                  /\ (exists req,
                         requests (price_depth self show_log_arg) = [req])).
  { intros Hgate. split.
    - destruct (intraday_open self s n last_time show_log_arg Hgate Hsym)
        as (req & Hreq & _). exists req. exact Hreq.
    - destruct (price_depth_open self s show_log_arg Hgate Hsym)
        as (req & Hreq & _). exists req. exact Hreq. }
  assert (Hclosed : preparing (trading_hours None) = true ->
                    requests (intraday self (Some n) last_time show_log_arg)
                    = []
                    /\ requests (price_depth self show_log_arg) = []).
  { intros Hgate.
    rewrite (intraday_closed _ _ _ _ Hgate), (price_depth_closed _ _ Hgate).
    split; reflexivity. }
  rewrite <- preparing_spec.
  destruct (preparing (trading_hours None)) eqn:Hgate.
  - destruct (Hclosed eq_refl) as [Hi Hp].
    split; [|split; [intros Hno; exfalso; apply Hno; reflexivity|]].
    + intros _.
      split; [apply intraday_closed, Hgate|].
      split; [apply price_depth_closed, Hgate|].
      eexists. reflexivity.
    + split; (split; [reflexivity | intros _; assumption]).
  - destruct (Hopen eq_refl) as [[ri Hi] [rp Hp]].
    split; [intros Hyes; discriminate Hyes|].
    split; [intros _; split; [exists ri | exists rp]; assumption|].
    rewrite Hi, Hp. split; (split; intros H; discriminate H).
Qed.

Lemma market_gate_witness :
  (is_trading_hour (@trading_hours env_preparing None) = false
   /\ data_status (@trading_hours env_preparing None) = "preparing" ->
   intraday (E := env_preparing) acb_code (Some 100) None false
   = ([], Raise (ValueError
            (msg_preparing (time (@trading_hours env_preparing None)))))
   /\ price_depth (E := env_preparing) acb_code false
      = ([], Raise (ValueError
               (msg_preparing (time (@trading_hours env_preparing None)))))
   /\ MarketUnavailableError
        (ValueError (msg_preparing (time (@trading_hours env_preparing None)))))
  /\ (~ (is_trading_hour (@trading_hours env_preparing None) = false
         /\ data_status (@trading_hours env_preparing None) = "preparing") ->
      (exists req,
          requests (intraday (E := env_preparing) acb_code (Some 100) None false)
          = [req])
      /\ (exists req,
             requests (price_depth (E := env_preparing) acb_code false)
             = [req]))
  /\ (requests (intraday (E := env_preparing) acb_code (Some 100) None false)
      = [] <->
      is_trading_hour (@trading_hours env_preparing None) = false
      /\ data_status (@trading_hours env_preparing None) = "preparing")
  /\ (requests (price_depth (E := env_preparing) acb_code false) = [] <->
      is_trading_hour (@trading_hours env_preparing None) = false
      /\ data_status (@trading_hours env_preparing None) = "preparing").
Proof.
  apply (market_gate (E := env_preparing) "ACB" false None true
           acb_code 100 None false).
  reflexivity.
Defined.

(** the two operations on four kinds of oracle answer *)
Example gate_on_four_answers :
  map (fun status =>
         (requests (intraday (E := code_env (Ok depth_rows) status)
                             acb_code (Some 100) None false),
          requests (price_depth (E := code_env (Ok depth_rows) status)
                                acb_code false)))
      [mkMarketStatus false "preparing" "08:30";
       mkMarketStatus true "preparing" "08:30";
       mkMarketStatus false "closed" "16:00";
       mkMarketStatus true "real_time" "10:00"]
  = [([], []);
     ([mkRequest "https://trading.example/api/market-watch/LEData/getAll"
                 some_headers "POST" (TicksPayload (Some "ACB") 100 None)
                 false [] "try" "direct" ""],
      [mkRequest
         "https://trading.example/api/market-watch/AccumulatedPriceStepVol/getSymbolData"
         some_headers "POST" (DepthPayload (Some "ACB"))
         false [] "try" "direct" ""]);
     ([mkRequest "https://trading.example/api/market-watch/LEData/getAll"
                 some_headers "POST" (TicksPayload (Some "ACB") 100 None)
                 false [] "try" "direct" ""],
      [mkRequest
         "https://trading.example/api/market-watch/AccumulatedPriceStepVol/getSymbolData"
         some_headers "POST" (DepthPayload (Some "ACB"))
         false [] "try" "direct" ""]);
     ([mkRequest "https://trading.example/api/market-watch/LEData/getAll"
                 some_headers "POST" (TicksPayload (Some "ACB") 100 None)
                 false [] "try" "direct" ""],
      [mkRequest
         "https://trading.example/api/market-watch/AccumulatedPriceStepVol/getSymbolData"
         some_headers "POST" (DepthPayload (Some "ACB"))
         false [] "try" "direct" ""])].
Proof. reflexivity. Qed.

(** ** The price-depth table *)

Lemma get_tabulate {V : Type} (f : string -> V) (l : list string)
    (k : string) (v : V) :
  get (map (fun c => (c, f c)) l) k = Some v -> v = f k.
Proof.
  induction l as [|c l IH]; cbn; [discriminate|].
  destruct (String.eqb_spec k c) as [->|_].
  - intros H. inversion H. reflexivity.
  - exact IH.
Qed.

(** a column of the frame built from a response holds the cells of the
    response under that label *)
Lemma DataFrame_of_column (raw : Json) (label : string) (cells : list Cell) :
  get (data (DataFrame_of raw)) label = Some cells ->
  cells = Sent.raw_column raw label.
Proof.
  destruct raw as [|rows]; cbn; [discriminate|].
  apply (get_tabulate (fun c => map (fun r => cell_of r c) rows)).
Qed.

(** a selection that succeeds returns the asked labels in the asked
    order, each with its column *)
Lemma select_DataFrame_of (raw : Json) (labels : list string)
    (d : list (string * list Cell)) :
  select (data (DataFrame_of raw)) labels = Ok d ->
  d = map (fun k => (k, Sent.raw_column raw k)) labels.
Proof.
  revert d. induction labels as [|k labels IH]; cbn; intros d.
  - intros H. inversion H. reflexivity.
  - destruct (get (data (DataFrame_of raw)) k) as [cells|] eqn:Hget;
      [|discriminate].
    destruct (select (data (DataFrame_of raw)) labels) as [d'|]; cbn;
      [|discriminate].
    intros H. inversion H; subst.
    rewrite (IH d' eq_refl), (DataFrame_of_column _ _ _ Hget). reflexivity.
Qed.

Lemma get_In {V : Type} (d : dict V) (k : string) (v : V) :
  NoDup (keys d) -> In (k, v) d -> get d k = Some v.
Proof.
  induction d as [|[k' v'] d IH]; cbn; intros Hnd Hin; [destruct Hin|].
  inversion Hnd as [|? ? Hnotin Hnd']; subst.
  destruct Hin as [Heq|Hin].
  - inversion Heq; subst. rewrite String.eqb_refl. reflexivity.
  - destruct (String.eqb_spec k k') as [->|_].
    + exfalso. apply Hnotin. unfold keys.
      apply in_map_iff. exists (k', v). auto.
    + apply IH; assumption.
Qed.

(** renaming the keys of a dictionary by the dictionary gives its values *)
Lemma rename_keys {V : Type} (m : dict string) (f : string -> V) :
  NoDup (keys m) ->
  map (fun p => (rename_label m (fst p), snd p))
      (map (fun k => (k, f k)) (keys m))
  = map (fun kv => (snd kv, f (fst kv))) m.
Proof.
  intros Hnd. unfold keys. rewrite !map_map. cbn.
  apply map_ext_in. intros [k v] Hin. cbn.
  unfold rename_label. rewrite (get_In m k v Hnd Hin). reflexivity.
Qed.

Lemma existsb_eqb_false (x : string) (l : list string) :
  ~ In x l -> existsb (String.eqb x) l = false.
Proof.
  intros Hnotin. induction l as [|y l IH]; cbn; [reflexivity|].
  destruct (String.eqb_spec x y) as [->|_].
  - exfalso. apply Hnotin. left. reflexivity.
  - apply IH. intros Hin. apply Hnotin. right. exact Hin.
Qed.

Section PriceDepth.
Context {E : Env}.

(** A call of [price_depth] that returns a table has found the market open,
    made one exchange and found every key of the depth-column map among
    the labels of the answer. *)
Lemma price_depth_ok (self : Quote) (show_log_arg : bool) (df : DataFrame) :
  outcome (price_depth self show_log_arg) = Ok df ->
  exists req raw selected,
    requests (price_depth self show_log_arg) = [req]
    /\ rq_payload req = DepthPayload (symbol self)
    /\ send_request req = Ok raw
    /\ getitem_list (DataFrame_of raw) (keys _PRICE_DEPTH_MAP) = Ok selected
    /\ df = setattr (rename selected _PRICE_DEPTH_MAP) "source"
                    (data_source self).
Proof.
  unfold price_depth.
  destruct (preparing (trading_hours None)); [discriminate|].
  destruct (symbol self) as [s|] eqn:Hsym; [|discriminate].
  unfold call.
  match goal with
  | |- context [send_request ?r] =>
      set (req := r); destruct (send_request req) as [raw|] eqn:Hsend
  end; cbn; [|discriminate].
  destruct (getitem_list (DataFrame_of raw) (keys _PRICE_DEPTH_MAP))
    as [selected|] eqn:Hsel; cbn; [|discriminate].
  intros H. inversion H; subst.
  exists req, raw, selected. repeat split; auto.
Qed.

End PriceDepth.

(** C10.  Let the depth-column map have distinct keys and no value
    "source".  A table that [price_depth] returns holds, in the order of
    the map, one column for each entry of the map, labelled with the
    entry's new name and filled with the cells the response has under the
    entry's source name; it holds no other column, and the data-source
    label is an attribute of the table. *)
Theorem price_depth_table {E : Env}
    (self : Quote) (show_log_arg : bool) (df : DataFrame) :
  NoDup (keys _PRICE_DEPTH_MAP) ->
  ~ In "source" (values _PRICE_DEPTH_MAP) ->
  outcome (price_depth self show_log_arg) = Ok df ->
  exists req raw,
    requests (price_depth self show_log_arg) = [req]
    /\ send_request req = Ok raw
    /\ data df
       = map (fun kv => (snd kv, Sent.raw_column raw (fst kv)))
             _PRICE_DEPTH_MAP
    /\ columns df = values _PRICE_DEPTH_MAP
    /\ attrs df = [("source", data_source self)]
    /\ get (attrs df) "source" = Some (data_source self)
    /\ ~ In "source" (columns df).
Proof.
  intros Hnd Hsource Hok.
  apply price_depth_ok in Hok
    as (req & raw & selected & Hreqs & _ & Hsend & Hsel & ->).
  exists req, raw. split; [exact Hreqs|]. split; [exact Hsend|].
  unfold getitem_list in Hsel.
  destruct (select (data (DataFrame_of raw)) (keys _PRICE_DEPTH_MAP))
    as [d|] eqn:Hd; cbn in Hsel; inversion Hsel; subst; clear Hsel.
  apply select_DataFrame_of in Hd. subst d.
  assert (Hattrs : attrs (DataFrame_of raw) = [])
    by (destruct raw; reflexivity).
  set (renamed :=
         rename (mkDataFrame
                   (map (fun k => (k, Sent.raw_column raw k))
                        (keys _PRICE_DEPTH_MAP))
                   (attrs (DataFrame_of raw)))
                _PRICE_DEPTH_MAP).
  assert (Hdata :
    data renamed
    = map (fun kv => (snd kv, Sent.raw_column raw (fst kv))) _PRICE_DEPTH_MAP)
    by (apply rename_keys, Hnd).
  assert (Hcols : columns renamed = values _PRICE_DEPTH_MAP).
  { unfold columns. rewrite Hdata. unfold values. rewrite map_map.
    reflexivity. }
  assert (Hset :
    setattr renamed "source" (data_source self)
    = mkDataFrame (data renamed) [("source", data_source self)]).
  { unfold setattr. rewrite Hcols, (existsb_eqb_false _ _ Hsource).
    unfold renamed at 2. cbn [rename attrs]. rewrite Hattrs. reflexivity. }
  rewrite Hset. unfold columns. cbn [data attrs].
  fold (columns renamed). rewrite Hdata, Hcols.
  repeat split; auto.
Qed.

Lemma price_depth_table_witness :
  exists df,
    outcome (price_depth (E := env_depth) acb_code false) = Ok df
    /\ exists req raw,
        requests (price_depth (E := env_depth) acb_code false) = [req]
        /\ @send_request env_depth req = Ok raw
        /\ data df
           = map (fun kv => (snd kv, Sent.raw_column raw (fst kv)))
                 (@_PRICE_DEPTH_MAP env_depth)
        /\ columns df = values (@_PRICE_DEPTH_MAP env_depth)
        /\ attrs df = [("source", data_source acb_code)]
        /\ get (attrs df) "source" = Some (data_source acb_code)
        /\ ~ In "source" (columns df).
Proof.
  eexists. split; [reflexivity|].
  apply (price_depth_table (E := env_depth) acb_code false).
  - repeat constructor; cbn; intuition discriminate.
  - cbn. intuition discriminate.
  - reflexivity.
Defined.

(** the table for a response of two rows with a column the map does not
    name *)
Example price_depth_example :
  outcome (price_depth (E := env_depth) acb_code false)
  = Ok (mkDataFrame
          [("price", [CNum (PyFloat 23.5); CNum (PyFloat 23.6)]);
           ("acc_volume", [CNum (PyInt 500); CNum (PyInt 100)]);
           ("acc_buy_volume", [CNum (PyInt 300); CNum (PyInt 40)]);
           ("acc_sell_volume", [CNum (PyInt 200); CNum (PyInt 60)])]
          [("source", "VCI")]).
Proof. reflexivity. Qed.

(* ================================================================== *)
(** * Further properties of the adapter                                 *)
(* ================================================================== *)

(** ** Construction *)

(** X1.  Construction succeeds exactly when the validator accepts the
    symbol, the classifier accepts the validated symbol [s] and, if [s]
    contains "INDEX", [s] is a key of the index table.  The instance then
    holds [s], or the table's code for [s] when [s] contains "INDEX"; its
    asset type is the class of [s] itself, also when the code replaces
    [s]; the other fields are the fixed source label, the empty cache,
    the constants of the module, the headers for the source label and the
    proxy configuration given, or the default one. *)
Theorem init_succeeds_exactly {E : Env}
    (symbol_arg : string) (random_agent : bool)
    (proxy_config_arg : option ProxyConfig) (show_log_arg : bool)
    (self : Quote) :
  outcome (__init__ symbol_arg random_agent proxy_config_arg show_log_arg)
  = Ok self
  <-> exists s a kept,
      validate_symbol symbol_arg = Ok s
      /\ get_asset_type s = Ok a
      /\ (if str_in "INDEX" s then get _INDEX_MAPPING s = Some kept
          else kept = s)
      /\ self = mkQuote (Some kept) "VCI" None a _TRADING_URL
                        (get_headers "VCI" random_agent) _INTERVAL_MAP
                        show_log_arg
                        (match proxy_config_arg with
                         | Some p => p
                         | None => default_ProxyConfig
                         end).
Proof.
  unfold __init__. split.
  - destruct (validate_symbol symbol_arg) as [s|] eqn:Hsym;
      cbn -[msg_index str_in]; [|discriminate].
    destruct (get_asset_type s) as [a|] eqn:Hasset;
      cbn -[msg_index str_in]; [|discriminate].
    destruct (str_in "INDEX" s) eqn:Hindex.
    + unfold _index_validation. cbn [symbol str_opt].
      rewrite in_keys_get. unfold getitem.
      destruct (get _INDEX_MAPPING s) as [kept|] eqn:Hget;
        destruct show_log_arg; cbn -[msg_index str_in];
          intros H; inversion H; subst;
            exists s, a, kept; rewrite Hindex; repeat split; auto.
    + destruct show_log_arg; cbn; intros H; inversion H; subst;
        exists s, a, s; rewrite Hindex; repeat split; auto.
  - intros (s & a & kept & Hsym & Hasset & Hkept & ->).
    rewrite Hsym. cbn -[msg_index str_in]. rewrite Hasset.
    cbn -[msg_index str_in].
    destruct (str_in "INDEX" s).
    + unfold _index_validation. cbn [symbol str_opt].
      rewrite in_keys_get. unfold getitem. rewrite Hkept.
      destruct show_log_arg; reflexivity.
    + subst kept. destruct show_log_arg; reflexivity.
Qed.

(** an index alias and a share in the strict environment *)
Example init_examples :
  outcome (__init__ (E := env_strict) "HNXINDEX" false None true) = Ok hnx
  /\ outcome (__init__ (E := env_strict) "ACB" false None true) = Ok acb_code.
Proof. split; reflexivity. Qed.

(** X2.  An exception of the symbol validator, or of the asset-type
    classifier on the validated symbol, ends construction as it is, and
    the logger has not been touched by then. *)
Theorem init_collaborator_failure {E : Env}
    (symbol_arg : string) (random_agent : bool)
    (proxy_config_arg : option ProxyConfig) (show_log_arg : bool)
    (e : Exn) :
  validate_symbol symbol_arg = Raise e
  \/ (exists s, validate_symbol symbol_arg = Ok s /\ get_asset_type s = Raise e) ->
  __init__ symbol_arg random_agent proxy_config_arg show_log_arg
  = ([], Raise e).
Proof.
  unfold __init__. intros [Hsym | (s & Hsym & Hasset)].
  - rewrite Hsym. reflexivity.
  - rewrite Hsym. cbn -[msg_index str_in]. rewrite Hasset. reflexivity.
Qed.

Lemma init_collaborator_failure_witness :
  __init__ (E := env_strict) "acb" false None false
  = ([], Raise (ValueError "invalid symbol: acb"))
  /\ __init__ (E := env_unclassified) "ACB" false None false
     = ([], Raise (ValueError "unknown asset type: ACB")).
Proof.
  split.
  - apply (init_collaborator_failure (E := env_strict)).
    left. reflexivity.
  - apply (init_collaborator_failure (E := env_unclassified)).
    right. exists "ACB". split; reflexivity.
Defined.

(** X3.  Once validator and classifier have accepted the symbol, the
    logger is set to CRITICAL exactly when show_log is false, and this
    happens before the index table is consulted: a construction that then
    fails on an unknown index alias has already silenced the logger. *)
Theorem init_logger_level {E : Env}
    (symbol_arg : string) (random_agent : bool)
    (proxy_config_arg : option ProxyConfig) (show_log_arg : bool)
    (s a : string) :
  validate_symbol symbol_arg = Ok s ->
  get_asset_type s = Ok a ->
  events (__init__ symbol_arg random_agent proxy_config_arg show_log_arg)
  = if show_log_arg then [] else [LogSetLevel "CRITICAL"].
Proof.
  intros Hsym Hasset. unfold __init__.
  rewrite Hsym. cbn -[msg_index str_in]. rewrite Hasset.
  cbn -[msg_index str_in].
  destruct (str_in "INDEX" s); [|destruct show_log_arg; reflexivity].
  destruct (_index_validation _); destruct show_log_arg; reflexivity.
Qed.

Lemma init_logger_level_witness :
  events (__init__ (E := env_strict) "VN30INDEX" false None false)
  = [LogSetLevel "CRITICAL"]
  /\ exists e,
      outcome (__init__ (E := env_strict) "VN30INDEX" false None false)
      = Raise e.
Proof.
  split.
  - apply (init_logger_level (E := env_strict)
             "VN30INDEX" false None false "VN30INDEX" "index");
      reflexivity.
  - eexists. reflexivity.
Defined.

(** ** Validation in [history]: which error comes first *)

(** X4.  The interval is judged before any date is read: an exception of
    the normaliser, or the refusal of the guard, ends [history] whatever
    the start and end texts are, and nothing is sent. *)
Theorem history_interval_judged_first {E : Env}
    (self : Quote) (start : string) (end_ : option string) (interval : string)
    (show_log_arg : bool) (count_back : option Z) (floating : Z) (e : Exn) :
  normalize_interval interval = Raise e
  \/ (exists timeframe,
         normalize_interval interval = Ok timeframe
         /\ existsb (tf_eq timeframe) (values (interval_map self)) = false
         /\ e = ValueError (msg_interval (tf_format timeframe))) ->
  history self start end_ interval show_log_arg count_back floating
  = ([], Raise e).
Proof.
  intros [Hnorm | (timeframe & Hnorm & Hguard & ->)].
  - apply history_rejected. unfold history_request, _input_validation.
    rewrite Hnorm. reflexivity.
  - apply history_mapped_timeframe_rejected; assumption.
Qed.

Lemma history_interval_judged_first_witness :
  history (E := env_bars) acb_code "next Monday" (Some "01/05/2024") "2D"
          false None 2
  = ([], Raise (ValueError "Invalid interval: 2D")).
Proof.
  apply (history_interval_judged_first (E := env_bars)).
  left. reflexivity.
Defined.

(** X5.  With the interval accepted, a start text that is a date in
    neither format ends [history] with the date-format error naming that
    text, whatever the end is, and nothing is sent. *)
Theorem history_start_format_error {E : Env}
    (self : Quote) (start : string) (end_ : option string) (interval : string)
    (show_log_arg : bool) (count_back : option Z) (floating : Z)
    (ticker : TickerModel) :
  _input_validation self start end_ interval = Ok ticker ->
  strptime start FmtDateTime = None ->
  strptime start FmtDate = None ->
  history self start end_ interval show_log_arg count_back floating
  = ([], Raise (ValueError (msg_date start)))
  /\ InvalidDateFormatError (ValueError (msg_date start)).
Proof.
  intros Hval Hdt Hd. split; [|eexists; reflexivity].
  apply history_rejected.
  pose proof (_input_validation_ok _ _ _ _ _ Hval) as (tf & _ & _ & Hticker).
  unfold history_request. rewrite Hval.
  unfold rbind at 1; cbv beta iota.
  replace (tk_start ticker) with start by (subst ticker; reflexivity).
  unfold start_time_of. rewrite Hdt, Hd. reflexivity.
Qed.

Lemma history_start_format_error_witness :
  history (E := env_bars) acb_code "05/01/2024" (Some "not a date") "1D"
          false None 2
  = ([], Raise (ValueError (msg_date "05/01/2024")))
  /\ InvalidDateFormatError (ValueError (msg_date "05/01/2024")).
Proof.
  apply (history_start_format_error (E := env_bars) acb_code
           "05/01/2024" (Some "not a date") "1D" false None 2
           (mkTickerModel (Some "ACB") "05/01/2024" (Some "not a date")
                          "ONE_DAY"));
    reflexivity.
Defined.

(** X6.  With the interval accepted and the start parsed, an end text
    that is a date in neither format ends [history] with the date-format
    error naming the end text, and nothing is sent. *)
Theorem history_end_format_error {E : Env}
    (self : Quote) (start e : string) (interval : string)
    (show_log_arg : bool) (count_back : option Z) (floating : Z)
    (ticker : TickerModel) (st : datetime) :
  _input_validation self start (Some e) interval = Ok ticker ->
  start_time_of start = Ok st ->
  strptime e FmtDateTime = None ->
  strptime e FmtDate = None ->
  history self start (Some e) interval show_log_arg count_back floating
  = ([], Raise (ValueError (msg_date e)))
  /\ InvalidDateFormatError (ValueError (msg_date e)).
Proof.
  intros Hval Hstart Hdt Hd. split; [|eexists; reflexivity].
  apply history_rejected.
  pose proof (_input_validation_ok _ _ _ _ _ Hval) as (tf & _ & _ & Hticker).
  unfold history_request. rewrite Hval.
  unfold rbind at 1; cbv beta iota.
  replace (tk_start ticker) with start by (subst ticker; reflexivity).
  rewrite Hstart. unfold rbind at 1; cbv beta iota.
  unfold end_window.
  replace (tk_end ticker) with (Some e) by (subst ticker; reflexivity).
  unfold end_time_of. rewrite Hdt, Hd. reflexivity.
Qed.

Lemma history_end_format_error_witness :
  history (E := env_bars) acb_code "2024-01-01" (Some "2024-01-32") "1D"
          false None 2
  = ([], Raise (ValueError (msg_date "2024-01-32")))
  /\ InvalidDateFormatError (ValueError (msg_date "2024-01-32")).
Proof.
  apply (history_end_format_error (E := env_bars) acb_code
           "2024-01-01" "2024-01-32" "1D" false None 2
           (mkTickerModel (Some "ACB") "2024-01-01" (Some "2024-01-32")
                          "ONE_DAY")
           (midnight 738886));
    reflexivity.
Defined.

(** X7.  A date-only end on the last day of the calendar cannot be
    advanced by a day: with the interval accepted and the start parsed,
    [history] ends in [OverflowError], which is none of the validation
    errors, and nothing is sent. *)
Theorem history_end_overflow {E : Env}
    (self : Quote) (start e : string) (interval : string)
    (show_log_arg : bool) (count_back : option Z) (floating : Z)
    (ticker : TickerModel) (st d : datetime) :
  _input_validation self start (Some e) interval = Ok ticker ->
  start_time_of start = Ok st ->
  strptime e FmtDate = Some d ->
  ordinal d = _MAXORDINAL ->
  history self start (Some e) interval show_log_arg count_back floating
  = ([], Raise (OverflowError "date value out of range")).
Proof.
  intros Hval Hstart Hd Hlast.
  apply history_rejected.
  pose proof (_input_validation_ok _ _ _ _ _ Hval) as (tf & _ & _ & Hticker).
  unfold history_request. rewrite Hval.
  unfold rbind at 1; cbv beta iota.
  replace (tk_start ticker) with start by (subst ticker; reflexivity).
  rewrite Hstart. unfold rbind at 1; cbv beta iota.
  unfold end_window.
  replace (tk_end ticker) with (Some e) by (subst ticker; reflexivity).
  rewrite (end_time_of_date _ _ Hd).
  unfold add_days. rewrite Hlast. reflexivity.
Qed.

Lemma history_end_overflow_witness :
  history (E := env_bars) acb_code "2024-01-01" (Some "9999-12-31") "1D"
          false None 2
  = ([], Raise (OverflowError "date value out of range")).
Proof.
  apply (history_end_overflow (E := env_bars) acb_code
           "2024-01-01" "9999-12-31" "1D" false None 2
           (mkTickerModel (Some "ACB") "2024-01-01" (Some "9999-12-31")
                          "ONE_DAY")
           (midnight 738886) (midnight _MAXORDINAL));
    reflexivity.
Defined.

(** X8.  With no end given there is no range check and no estimate: once
    the interval is accepted, the start parses, the timeframe is a key of
    the interval map and both the start and tomorrow lie inside the range
    of pandas timestamps (line 134 builds the business-day index of the
    window also when it is not used), the request goes out with "to" set
    to the same time tomorrow and "countBack" set to the explicit
    count_back, or to 1000 without one, whether the start lies before or
    after the present. *)
Theorem history_open_end {E : Env}
    (self : Quote) (start : string) (interval : string)
    (show_log_arg : bool) (count_back : option Z)
    (ticker : TickerModel) (st : datetime) (iv : string) :
  _input_validation self start None interval = Ok ticker ->
  start_time_of start = Ok st ->
  Window.in_timestamp_range st ->
  Window.in_timestamp_range (Sent.next_day now) ->
  get (interval_map self) (tk_interval ticker) = Some iv ->
  exists req,
    history_request self start None interval show_log_arg count_back = Ok req
    /\ Sent.time_frame req = Some iv
    /\ Sent.to req = Some (timestamp (Sent.next_day now))
    /\ Sent.count_back req
       = Some (PyInt (match count_back with Some c => c | None => 1000 end)).
Proof.
  intros Hval Hstart Hst Hnow Hget.
  pose proof (_input_validation_ok _ _ _ _ _ Hval)
    as (tf & Hnorm & Hguard & Hticker).
  subst ticker. cbn [tk_interval] in Hget.
  assert (Hwin : end_window None
                   (mkTickerModel (symbol self) start None (tf_str tf)) st
                 = Ok (Sent.next_day now, timestamp (Sent.next_day now))).
  { unfold end_window. rewrite add_days_in_range; [reflexivity|].
    unfold Window.in_timestamp_range, Sent.next_day in Hnow.
    cbn [ordinal] in Hnow. unfold _MAXORDINAL.
    assert (0 < _ymd2ord 1677 9 22) by reflexivity.
    assert (_ymd2ord 2262 4 10 < 3652059) by reflexivity.
    lia. }
  eexists. split.
  - apply (history_request_complete self start None interval show_log_arg
             count_back tf st _ _ iv Hnorm Hguard Hstart Hwin Hget Hst Hnow).
  - repeat split. cbn. destruct count_back; reflexivity.
Qed.

Lemma history_open_end_witness :
  exists req,
    history_request (E := env_bars) acb_code "2030-06-01" None "1H" false None
    = Ok req
    /\ Sent.time_frame req = Some "ONE_HOUR"
    /\ Sent.to req = Some (@timestamp env_bars (Sent.next_day (@now env_bars)))
    /\ Sent.count_back req = Some (PyInt 1000).
Proof.
  apply (history_open_end (E := env_bars) acb_code "2030-06-01" "1H" false
           None
           (mkTickerModel (Some "ACB") "2030-06-01" None "ONE_HOUR")
           (midnight 741229) "ONE_HOUR").
  - reflexivity.
  - reflexivity.
  - unfold Window.in_timestamp_range. vm_compute. split; discriminate.
  - unfold Window.in_timestamp_range. vm_compute. split; discriminate.
  - reflexivity.
Defined.

(** X9.  A timeframe that passes the guard (it equals a value of the
    interval map) without being a key of the map ends [history], after
    the dates have been validated, in the [KeyError] of the lookup on
    line 130, with nothing sent. *)
Theorem history_lookup_KeyError {E : Env}
    (self : Quote) (start : string) (end_ : option string) (interval : string)
    (show_log_arg : bool) (count_back : option Z) (floating : Z)
    (ticker : TickerModel) (st : datetime) (window : datetime * Z) :
  _input_validation self start end_ interval = Ok ticker ->
  start_time_of start = Ok st ->
  end_window end_ ticker st = Ok window ->
  get (interval_map self) (tk_interval ticker) = None ->
  history self start end_ interval show_log_arg count_back floating
  = ([], Raise (KeyError (tk_interval ticker))).
Proof.
  intros Hval Hstart Hwin Hget.
  pose proof (_input_validation_ok _ _ _ _ _ Hval)
    as (tf & Hnorm & Hguard & ->).
  cbn [tk_interval] in *.
  exact (history_unmapped_timeframe_KeyError self start end_ interval
           show_log_arg count_back floating tf st window
           Hnorm Hguard Hget Hstart Hwin).
Qed.

Lemma history_lookup_KeyError_witness :
  history (E := env_passthrough) acb_spec
          "2024-01-01" (Some "2024-01-05") "ONE_DAY" false None 2
  = ([], Raise (KeyError "ONE_DAY")).
Proof.
  apply (history_lookup_KeyError (E := env_passthrough) acb_spec
           "2024-01-01" (Some "2024-01-05") "ONE_DAY" false None 2
           (mkTickerModel (Some "ACB") "2024-01-01" (Some "2024-01-05")
                          "ONE_DAY")
           (midnight 738886) (midnight 738891, 1704499200));
    reflexivity.
Defined.

(** ** What every call does and never does *)

Lemma requests_history_inv {E : Env}
    (self : Quote) (start : string) (end_ : option string) (interval : string)
    (show_log_arg : bool) (count_back : option Z) (floating : Z)
    (req : Request) :
  requests (history self start end_ interval show_log_arg count_back floating)
  = [req] ->
  history_request self start end_ interval show_log_arg count_back = Ok req.
Proof.
  destruct (history_request self start end_ interval show_log_arg count_back)
    as [req'|e] eqn:Hreq.
  - rewrite (history_requests_accepted _ _ _ _ _ _ floating _ Hreq).
    intros H. inversion H. reflexivity.
  - rewrite (history_rejected _ _ _ _ _ _ floating _ Hreq). discriminate.
Qed.

Lemma requests_intraday_inv {E : Env}
    (self : Quote) (page_size : option Z) (last_time : option string)
    (show_log_arg : bool) (req : Request) :
  requests (intraday self page_size last_time show_log_arg) = [req] ->
  exists n,
    page_size = Some n
    /\ preparing (trading_hours None) = false
    /\ intraday self page_size last_time show_log_arg
       = ((if n >? 30000 then [LogWarning msg_page_size] else [])
            ++ [Network req],
          rbind (send_request req)
                (fun data => intraday_to_df data _INTRADAY_MAP _INTRADAY_DTYPE
                               (symbol self) (asset_type self)
                               (data_source self)))%list.
Proof.
  unfold intraday.
  destruct (preparing (trading_hours None)); [discriminate|].
  destruct (symbol self) as [s|]; [|discriminate].
  destruct page_size as [n|]; [|discriminate].
  unfold call.
  match goal with
  | |- context [send_request ?r] => set (sent := r)
  end.
  intros Hreq. exists n. split; [reflexivity|]. split; [reflexivity|].
  assert (req = sent) as ->.
  { destruct (n >? 30000); cbn in Hreq;
      destruct (send_request sent) as [data|]; cbn in Hreq;
        try destruct (intraday_to_df data _ _ _ _ _); cbn in Hreq;
          inversion Hreq; reflexivity. }
  destruct (n >? 30000); cbn;
    destruct (send_request sent) as [data|]; cbn; try reflexivity;
      destruct (intraday_to_df data _ _ _ _ _); reflexivity.
Qed.

Lemma requests_price_depth_inv {E : Env}
    (self : Quote) (show_log_arg : bool) (req : Request) :
  requests (price_depth self show_log_arg) = [req] ->
  preparing (trading_hours None) = false
  /\ price_depth self show_log_arg
     = ([Network req],
        rbind (send_request req)
              (fun data =>
                 rbind (getitem_list (DataFrame_of data) (keys _PRICE_DEPTH_MAP))
                       (fun df => Ok (setattr (rename df _PRICE_DEPTH_MAP)
                                              "source" (data_source self))))).
Proof.
  unfold price_depth.
  destruct (preparing (trading_hours None)); [discriminate|].
  destruct (symbol self) as [s|]; [|discriminate].
  unfold call.
  match goal with
  | |- context [send_request ?r] => set (sent := r)
  end.
  intros Hreq. split; [reflexivity|].
  assert (req = sent) as ->.
  { cbn in Hreq. destruct (send_request sent) as [data|]; cbn in Hreq;
      try destruct (getitem_list (DataFrame_of data) _); cbn in Hreq;
        inversion Hreq; reflexivity. }
  cbn. destruct (send_request sent) as [data|]; cbn; try reflexivity.
  destruct (getitem_list (DataFrame_of data) _); reflexivity.
Qed.

(** X10.  An exception of the transport comes out of each of the three
    operations as it is: when the request of a call is [req] and the
    transport raises [e] on [req], the call ends in [e]. *)
Theorem transport_errors_propagate {E : Env}
    (self : Quote) (start : string) (end_ : option string) (interval : string)
    (show_log_arg : bool) (count_back : option Z) (floating : Z)
    (page_size : option Z) (last_time : option string)
    (req : Request) (e : Exn) :
  send_request req = Raise e ->
  (requests (history self start end_ interval show_log_arg count_back floating)
   = [req] ->
   outcome (history self start end_ interval show_log_arg count_back floating)
   = Raise e)
  /\ (requests (intraday self page_size last_time show_log_arg) = [req] ->
      outcome (intraday self page_size last_time show_log_arg) = Raise e)
  /\ (requests (price_depth self show_log_arg) = [req] ->
      outcome (price_depth self show_log_arg) = Raise e).
Proof.
  intros Hsend. repeat split.
  - intros Hreq. apply requests_history_inv in Hreq.
    rewrite (history_accepted _ _ _ _ _ _ floating _ Hreq). cbn.
    rewrite Hsend. reflexivity.
  - intros Hreq. apply requests_intraday_inv in Hreq as (n & _ & _ & ->).
    cbn. rewrite Hsend. reflexivity.
  - intros Hreq. apply requests_price_depth_inv in Hreq as (_ & ->).
    cbn. rewrite Hsend. reflexivity.
Qed.

Lemma transport_errors_propagate_witness :
  outcome (history (E := env_down) acb_code
                   "2024-01-01" (Some "2024-01-05") "1D" false None 2)
  = Raise transport_failure
  /\ outcome (intraday (E := env_down) acb_code (Some 100) None false)
     = Raise transport_failure
  /\ outcome (price_depth (E := env_down) acb_code false)
     = Raise transport_failure.
Proof.
  split; [|split].
  - eapply (proj1 (transport_errors_propagate (E := env_down) acb_code
              "2024-01-01" (Some "2024-01-05") "1D" false None 2
              (Some 100) None _ transport_failure eq_refl)).
    reflexivity.
  - eapply (proj1 (proj2 (transport_errors_propagate (E := env_down) acb_code
              "2024-01-01" (Some "2024-01-05") "1D" false None 2
              (Some 100) None _ transport_failure eq_refl))).
    reflexivity.
  - eapply (proj2 (proj2 (transport_errors_propagate (E := env_down) acb_code
              "2024-01-01" (Some "2024-01-05") "1D" false None 2
              (Some 100) None _ transport_failure eq_refl))).
    reflexivity.
Defined.

(** X11.  Construction sends nothing, and each of the three operations
    sends at most one request, whatever its arguments and whatever the
    collaborators answer. *)
Theorem at_most_one_request {E : Env}
    (self : Quote) (symbol_arg : string) (random_agent : bool)
    (proxy_config_arg : option ProxyConfig) (show_log0 : bool)
    (start : string) (end_ : option string) (interval : string)
    (show_log_arg : bool) (count_back : option Z) (floating : Z)
    (page_size : option Z) (last_time : option string) :
  requests (__init__ symbol_arg random_agent proxy_config_arg show_log0) = []
  /\ (List.length
        (requests (history self start end_ interval show_log_arg count_back
                           floating)) <= 1)%nat
  /\ (List.length
        (requests (intraday self page_size last_time show_log_arg)) <= 1)%nat
  /\ (List.length (requests (price_depth self show_log_arg)) <= 1)%nat.
Proof.
  repeat split.
  - unfold __init__.
    destruct (validate_symbol symbol_arg) as [s|]; cbn -[msg_index str_in];
      [|reflexivity].
    destruct (get_asset_type s) as [a|]; cbn -[msg_index str_in];
      [|reflexivity].
    destruct (str_in "INDEX" s); [destruct (_index_validation _)|];
      destruct show_log0; reflexivity.
  - destruct (history_request self start end_ interval show_log_arg count_back)
      as [req|e] eqn:Hreq.
    + rewrite (history_requests_accepted _ _ _ _ _ _ floating _ Hreq).
      cbn. lia.
    + rewrite (history_rejected _ _ _ _ _ _ floating _ Hreq). cbn. lia.
  - unfold intraday.
    destruct (preparing (trading_hours None)); [cbn; lia|].
    destruct (symbol self); [|cbn; lia].
    destruct page_size as [n|]; [|cbn; lia].
    unfold call. destruct (n >? 30000); cbn; run_collaborators; cbn; lia.
  - unfold price_depth.
    destruct (preparing (trading_hours None)); [cbn; lia|].
    destruct (symbol self); [|cbn; lia].
    unfold call. cbn. run_collaborators; cbn; lia.
Qed.

(** X12.  No call of [history] returns a table: every call ends in an
    exception, be it from validation, from the transport, from the empty
    answer or from the unbound name of line 178. *)
Theorem history_never_returns {E : Env}
    (self : Quote) (start : string) (end_ : option string) (interval : string)
    (show_log_arg : bool) (count_back : option Z) (floating : Z) :
  exists e,
    outcome (history self start end_ interval show_log_arg count_back floating)
    = Raise e.
Proof.
  destruct (history_request self start end_ interval show_log_arg count_back)
    as [req|e] eqn:Hreq.
  - rewrite (history_accepted _ _ _ _ _ _ floating _ Hreq). cbn.
    destruct (send_request req) as [json|e]; cbn; [|eexists; reflexivity].
    destruct (truthy json) eqn:Htruthy.
    + rewrite (history_frame_truthy _ Htruthy). eexists; reflexivity.
    + rewrite (history_frame_falsy _ Htruthy). eexists; reflexivity.
  - rewrite (history_rejected _ _ _ _ _ _ floating _ Hreq).
    eexists; reflexivity.
Qed.

(** X13.  The four errors that [history] raises in its own code can be
    told apart by their messages, whatever timeframe and text they name:
    no exception is of two of the kinds invalid interval, invalid date
    format, invalid range and no data. *)
Theorem history_errors_told_apart (e : Exn) :
  ~ (InvalidIntervalError e /\ InvalidDateFormatError e)
  /\ ~ (InvalidIntervalError e /\ InvalidRangeError e)
  /\ ~ (InvalidIntervalError e /\ NoDataError e)
  /\ ~ (InvalidDateFormatError e /\ InvalidRangeError e)
  /\ ~ (InvalidDateFormatError e /\ NoDataError e)
  /\ ~ (InvalidRangeError e /\ NoDataError e).
Proof.
  unfold InvalidIntervalError, InvalidDateFormatError, InvalidRangeError,
    NoDataError.
  repeat split.
  - intros [[t ->] [s H]]. discriminate H.
  - intros [[t ->] H]. discriminate H.
  - intros [[t ->] H]. discriminate H.
  - intros [[s ->] H]. discriminate H.
  - intros [[s ->] H]. discriminate H.
  - intros [-> H]. discriminate H.
Qed.

(** ** The size of the estimate *)

Lemma days_from_succ (o : Z) (n : nat) :
  days_from o (S n) = o :: days_from (o + 1) n.
Proof.
  unfold days_from. cbn [seq map]. f_equal; [lia|].
  rewrite <- seq_shift, map_map. apply map_ext. intros k. lia.
Qed.

Lemma days_from_app (o : Z) (n m : nat) :
  days_from o (n + m)
  = (days_from o n ++ days_from (o + Z.of_nat n) m)%list.
Proof.
  revert o. induction n as [|n IH]; intros o.
  - cbn [Nat.add]. unfold days_from at 2. cbn. f_equal. lia.
  - cbn [Nat.add]. rewrite !days_from_succ, IH. cbn [app]. do 3 f_equal. lia.
Qed.

Lemma weekday_next (x : Z) :
  (x + 1 + 6) mod 7 = ((x + 6) mod 7 + 1) mod 7.
Proof.
  replace (x + 1 + 6) with (x + 6 + 1) by lia.
  rewrite Z.add_mod by lia. rewrite (Z.mod_small 1 7) by lia. reflexivity.
Qed.

(** any seven days in a row hold five business days *)
Lemma business_days_of_a_week (o : Z) :
  List.length (filter is_business_day (days_from o 7)) = 5%nat.
Proof.
  rewrite !days_from_succ. unfold days_from. cbn [seq map filter].
  unfold is_business_day, weekday, midnight. cbn [ordinal].
  rewrite !weekday_next.
  pose proof (Z.mod_pos_bound (o + 6) 7 ltac:(lia)) as Hw.
  assert (Hcases : (o + 6) mod 7 = 0 \/ (o + 6) mod 7 = 1
                   \/ (o + 6) mod 7 = 2 \/ (o + 6) mod 7 = 3
                   \/ (o + 6) mod 7 = 4 \/ (o + 6) mod 7 = 5
                   \/ (o + 6) mod 7 = 6) by lia.
  repeat (destruct Hcases as [Hc | Hcases]); try rename Hcases into Hc;
    rewrite Hc; reflexivity.
Qed.

Lemma business_days_of_weeks (k : nat) (o : Z) :
  List.length (filter is_business_day (days_from o (7 * k))) = (5 * k)%nat.
Proof.
  revert o. induction k as [|k IH]; intros o; [reflexivity|].
  replace (7 * S k)%nat with (7 + 7 * k)%nat by lia.
  rewrite days_from_app, filter_app, length_app, business_days_of_a_week, IH.
  lia.
Qed.

Lemma len_bdate_range (s e : datetime) :
  len (bdate_range s e)
  = Z.of_nat (List.length
                (filter is_business_day
                        (days_from (ordinal s)
                                   (Z.to_nat (ordinal e - ordinal s + 1))))).
Proof.
  unfold len, bdate_range. rewrite length_map. reflexivity.
Qed.

(** the business days of a window are no more than its days *)
Lemma len_bdate_range_bounds (s e : datetime) :
  0 <= len (bdate_range s e) <= Logged.days_in_window s e.
Proof.
  rewrite len_bdate_range. unfold Logged.days_in_window.
  pose proof (filter_length_le is_business_day
                (days_from (ordinal s) (Z.to_nat (ordinal e - ordinal s + 1))))
    as Hle.
  unfold days_from in Hle at 2. rewrite length_map, length_seq in Hle. lia.
Qed.

(** a window of [k] whole weeks holds [5 * k] business days *)
Lemma len_bdate_range_weeks (s e : datetime) (k : Z) :
  0 <= k -> ordinal e - ordinal s + 1 = 7 * k ->
  len (bdate_range s e) = 5 * k.
Proof.
  intros Hk Hdays. rewrite len_bdate_range, Hdays.
  replace (Z.to_nat (7 * k)) with (7 * Z.to_nat k)%nat by lia.
  rewrite business_days_of_weeks. lia.
Qed.

Lemma hourly_integral (n : Z) :
  (exists z : Z, (inject_Z n * 6.5 + 1 == inject_Z z)%Q) <-> Z.even n = true.
Proof.
  rewrite Z.even_spec. unfold Qeq, Qplus, Qmult, inject_Z. cbn [Qnum Qden].
  split.
  - intros [z Hz]. exists (z - 1 - 6 * n). lia.
  - intros [m ->]. exists (13 * m + 1). lia.
Qed.

Lemma minute_integral (n : Z) :
  exists z : Z, (inject_Z n * 6.5 * 60 + 1 == inject_Z z)%Q.
Proof.
  exists (390 * n + 1).
  unfold Qeq, Qplus, Qmult, inject_Z. cbn [Qnum Qden]. lia.
Qed.

Lemma float_estimates_ge_1 (n : Z) :
  0 <= n ->
  (1 <= inject_Z n * 6.5 + 1)%Q /\ (1 <= inject_Z n * 6.5 * 60 + 1)%Q.
Proof.
  intros Hn. unfold Qle, Qplus, Qmult, inject_Z. cbn [Qnum Qden]. lia.
Qed.

(** what an estimating call has parsed and sent *)
Lemma estimate_sent {E : Env}
    (self : Quote) (start e : string) (interval : string)
    (show_log_arg : bool) (req : Request) :
  history_request self start (Some e) interval show_log_arg None = Ok req ->
  exists st et code,
    start_time_of start = Ok st
    /\ end_time_of e = Ok et
    /\ dt_gtb st et = false
    /\ Sent.time_frame req = Some code
    /\ Sent.count_back req
       = Some (auto_count_back_of None (Some e) code (bdate_range st et)).
Proof.
  intros Hreq.
  apply history_request_ok in Hreq
    as (timeframe & st & et & iv & _ & _ & Hstart & Hwin & _ & Hpayload).
  apply end_window_given in Hwin as (Hparse & Hgt & _); [|reflexivity].
  exists st, et, iv. repeat split; try assumption.
  - unfold Sent.time_frame. rewrite Hpayload. reflexivity.
  - unfold Sent.count_back. rewrite Hpayload. reflexivity.
Qed.

(** X14.  An estimated count-back (no count_back, end given) is at least
    1 whatever the timeframe, and for the daily code it is at most the
    number of days of the window plus 1. *)
Theorem history_estimate_bounds {E : Env}
    (self : Quote) (start e : string) (interval : string)
    (show_log_arg : bool) (req : Request) :
  history_request self start (Some e) interval show_log_arg None = Ok req ->
  exists st et cb,
    start_time_of start = Ok st
    /\ end_time_of e = Ok et
    /\ Sent.count_back req = Some cb
    /\ (1 <= Logged.value cb)%Q
    /\ (Sent.time_frame req = Some "ONE_DAY" ->
        (Logged.value cb <= inject_Z (Logged.days_in_window st et + 1))%Q).
Proof.
  intros Hreq.
  apply estimate_sent in Hreq
    as (st & et & code & Hstart & Hparse & _ & Htf & Hcb).
  exists st, et, (auto_count_back_of None (Some e) code (bdate_range st et)).
  pose proof (len_bdate_range_bounds st et) as [Hlo Hhi].
  pose proof (float_estimates_ge_1 _ Hlo) as [Hh Hm].
  repeat split; try assumption.
  - unfold auto_count_back_of.
    destruct (String.eqb code "ONE_DAY");
      [unfold Logged.value, Qle, inject_Z; cbn [Qnum Qden]; lia|].
    destruct (String.eqb code "ONE_HOUR"); [exact Hh|].
    destruct (String.eqb code "ONE_MINUTE"); [exact Hm|].
    unfold Logged.value, Qle, inject_Z; cbn [Qnum Qden]; lia.
  - rewrite Htf. intros Hday. inversion Hday; subst.
    change (auto_count_back_of None (Some e) "ONE_DAY" (bdate_range st et))
      with (PyInt (len (bdate_range st et) + 1)).
    unfold Logged.value, Qle, inject_Z; cbn [Qnum Qden]; lia.
Qed.

Lemma history_estimate_bounds_witness :
  exists req,
    history_request (E := env_bars) acb_code
                    "2024-01-06" (Some "2024-01-06") "1D" false None
    = Ok req
    /\ exists st et cb,
        start_time_of "2024-01-06" = Ok st
        /\ end_time_of "2024-01-06" = Ok et
        /\ Sent.count_back req = Some cb
        /\ (1 <= Logged.value cb)%Q
        /\ (Sent.time_frame req = Some "ONE_DAY" ->
            (Logged.value cb <= inject_Z (Logged.days_in_window st et + 1))%Q).
Proof.
  eexists. split; [reflexivity|].
  apply (history_estimate_bounds (E := env_bars) acb_code
           "2024-01-06" "2024-01-06" "1D" false).
  reflexivity.
Defined.

(** a week-end alone holds no business day: the daily estimate is 1 *)
Example history_estimate_weekend :
  option_map Sent.count_back
    (match history_request (E := env_bars) acb_code
             "2024-01-06" (Some "2024-01-06") "1D" false None with
     | Ok req => Some req | Raise _ => None end)
  = Some (Some (PyInt 1)).
Proof. reflexivity. Qed.

(** X15.  When the window from the start to the effective end is [k]
    whole weeks, the estimate counts [5 * k] business days, on whatever
    day of the week the window begins: the daily count-back is
    [5 * k + 1]. *)
Theorem history_estimate_whole_weeks {E : Env}
    (self : Quote) (start e : string) (interval : string)
    (show_log_arg : bool) (req : Request) (k : Z) :
  history_request self start (Some e) interval show_log_arg None = Ok req ->
  Sent.time_frame req = Some "ONE_DAY" ->
  0 <= k ->
  (forall st et,
      start_time_of start = Ok st -> end_time_of e = Ok et ->
      ordinal et - ordinal st + 1 = 7 * k) ->
  Sent.count_back req = Some (PyInt (5 * k + 1)).
Proof.
  intros Hreq Hday Hk Hweeks.
  apply estimate_sent in Hreq
    as (st & et & code & Hstart & Hparse & _ & Htf & Hcb).
  rewrite Htf in Hday. inversion Hday; subst code.
  rewrite Hcb. cbn.
  rewrite (len_bdate_range_weeks st et k Hk (Hweeks st et Hstart Hparse)).
  reflexivity.
Qed.

Lemma history_estimate_whole_weeks_witness :
  exists req,
    history_request (E := env_bars) acb_code
                    "2024-01-03" (Some "2024-01-15") "1D" false None
    = Ok req
    /\ Sent.count_back req = Some (PyInt 11).
Proof.
  eexists. split; [reflexivity|].
  apply (history_estimate_whole_weeks (E := env_bars) acb_code
           "2024-01-03" "2024-01-15" "1D" false _ 2).
  - reflexivity.
  - reflexivity.
  - lia.
  - intros st et Hst Het. vm_compute in Hst, Het.
    inversion Hst; inversion Het; subst. reflexivity.
Defined.

(** X16.  The hourly estimate is a whole number exactly when the window
    holds an even number of business days; the minute estimate is always
    a whole number, though it is sent as a float. *)
Theorem history_estimate_whole_number {E : Env}
    (self : Quote) (start e : string) (interval : string)
    (show_log_arg : bool) (req : Request) :
  history_request self start (Some e) interval show_log_arg None = Ok req ->
  exists st et cb,
    start_time_of start = Ok st
    /\ end_time_of e = Ok et
    /\ Sent.count_back req = Some cb
    /\ (Sent.time_frame req = Some "ONE_HOUR" ->
        (Sent.integral cb <-> Z.even (len (bdate_range st et)) = true))
    /\ (Sent.time_frame req = Some "ONE_MINUTE" ->
        Sent.integral cb /\ is_int cb = false).
Proof.
  intros Hreq.
  apply estimate_sent in Hreq
    as (st & et & code & Hstart & Hparse & _ & Htf & Hcb).
  exists st, et, (auto_count_back_of None (Some e) code (bdate_range st et)).
  split; [exact Hstart|]. split; [exact Hparse|]. split; [exact Hcb|].
  rewrite Htf. split.
  - intros Hcode. inversion Hcode; subst code.
    change (auto_count_back_of None (Some e) "ONE_HOUR" (bdate_range st et))
      with (PyFloat (inject_Z (len (bdate_range st et)) * 6.5 + 1)%Q).
    apply hourly_integral.
  - intros Hcode. inversion Hcode; subst code.
    change (auto_count_back_of None (Some e) "ONE_MINUTE" (bdate_range st et))
      with (PyFloat (inject_Z (len (bdate_range st et)) * 6.5 * 60 + 1)%Q).
    split; [apply minute_integral | reflexivity].
Qed.

Lemma history_estimate_whole_number_witness :
  exists req,
    history_request (E := env_bars) acb_code
                    "2024-01-01" (Some "2024-01-04") "1H" false None
    = Ok req
    /\ exists st et cb,
        start_time_of "2024-01-01" = Ok st
        /\ end_time_of "2024-01-04" = Ok et
        /\ Sent.count_back req = Some cb
        /\ (Sent.time_frame req = Some "ONE_HOUR" ->
            (Sent.integral cb <-> Z.even (len (bdate_range st et)) = true))
        /\ (Sent.time_frame req = Some "ONE_MINUTE" ->
            Sent.integral cb /\ is_int cb = false).
Proof.
  eexists. split; [reflexivity|].
  apply (history_estimate_whole_number (E := env_bars) acb_code
           "2024-01-01" "2024-01-04" "1H" false).
  reflexivity.
Defined.

(** ** [intraday] *)

(** X17.  When [intraday] gets past the market and symbol checks with an
    integer page size [n], it logs one warning if [n] exceeds 30000 and
    none otherwise (30000 itself passes silently), and in both cases it
    then sends the request with "limit" equal to [n]: the page size is
    not cut down. *)
Theorem intraday_page_size_warning {E : Env}
    (self : Quote) (s : string) (n : Z) (last_time : option string)
    (show_log_arg : bool) :
  preparing (trading_hours None) = false ->
  symbol self = Some s ->
  exists req,
    events (intraday self (Some n) last_time show_log_arg)
    = ((if 30000 <? n then [LogWarning msg_page_size] else [])
         ++ [Network req])%list
    /\ Logged.warnings (intraday self (Some n) last_time show_log_arg)
       = (if 30000 <? n then [msg_page_size] else [])
    /\ Logged.limit req = Some n.
Proof.
  intros Hgate Hsym.
  destruct (intraday_open self s n last_time show_log_arg Hgate Hsym)
    as (req & Hreq & Hpayload).
  exists req.
  destruct (requests_intraday_inv _ _ _ _ _ Hreq) as (n' & Hn & _ & Hrun).
  inversion Hn; subst n'.
  unfold Logged.warnings. rewrite Hrun. unfold events. cbn [fst].
  rewrite Z.gtb_ltb.
  split; [reflexivity|]. split.
  - destruct (30000 <? n); reflexivity.
  - unfold Logged.limit. rewrite Hpayload. reflexivity.
Qed.

Lemma intraday_page_size_warning_witness :
  exists req,
    events (intraday (E := env_bars) acb_code (Some 30001) None false)
    = ((if 30000 <? 30001 then [LogWarning msg_page_size] else [])
         ++ [Network req])%list
    /\ Logged.warnings (intraday (E := env_bars) acb_code (Some 30001) None
                                 false)
       = (if 30000 <? 30001 then [msg_page_size] else [])
    /\ Logged.limit req = Some 30001.
Proof.
  apply (intraday_page_size_warning (E := env_bars) acb_code "ACB" 30001
           None false); reflexivity.
Defined.

(** the threshold itself *)
Example intraday_page_size_30000 :
  Logged.warnings (intraday (E := env_bars) acb_code (Some 30000) None false)
  = []
  /\ Logged.warnings (intraday (E := env_bars) acb_code (Some 30001) None
                               false)
     = [msg_page_size].
Proof. split; reflexivity. Qed.

(** X18.  A page size of [None], which the signature allows, is not
    replaced by a default: on an open market the comparison with 30000
    raises [TypeError] before anything is sent; on a market that is
    preparing, the market error comes first. *)
Theorem intraday_without_page_size {E : Env}
    (self : Quote) (s : string) (last_time : option string)
    (show_log_arg : bool) :
  symbol self = Some s ->
  intraday self None last_time show_log_arg
  = if preparing (trading_hours None)
    then ([], Raise (ValueError (msg_preparing (time (trading_hours None)))))
    else ([], Raise (TypeError
            "'>' not supported between instances of 'NoneType' and 'int'")).
Proof.
  intros Hsym. unfold intraday. rewrite Hsym.
  destruct (preparing (trading_hours None)); reflexivity.
Qed.

Lemma intraday_without_page_size_witness :
  intraday (E := env_bars) acb_code None None false
  = ([], Raise (TypeError
       "'>' not supported between instances of 'NoneType' and 'int'"))
  /\ exists e,
      intraday (E := env_preparing) acb_code None None false = ([], Raise e)
      /\ MarketUnavailableError e.
Proof.
  split.
  - apply (intraday_without_page_size (E := env_bars) acb_code "ACB").
    reflexivity.
  - eexists. split.
    + apply (intraday_without_page_size (E := env_preparing) acb_code "ACB").
      reflexivity.
    + eexists. reflexivity.
Defined.

(** X19.  [intraday] hands the answer of the transport to the
    transformer as it is, together with the two fixed tables, the
    instance's symbol and asset type and the source label, and returns
    what the transformer returns; unlike [history] it does not turn an
    empty answer away itself. *)
Theorem intraday_hands_answer_on {E : Env}
    (self : Quote) (page_size : option Z) (last_time : option string)
    (show_log_arg : bool) (req : Request) (data : Json) :
  requests (intraday self page_size last_time show_log_arg) = [req] ->
  send_request req = Ok data ->
  outcome (intraday self page_size last_time show_log_arg)
  = intraday_to_df data _INTRADAY_MAP _INTRADAY_DTYPE
                   (symbol self) (asset_type self) (data_source self).
Proof.
  intros Hreq Hsend.
  apply requests_intraday_inv in Hreq as (n & _ & _ & ->).
  cbn. rewrite Hsend. reflexivity.
Qed.

Lemma intraday_hands_answer_on_witness :
  outcome (intraday (E := env_empty) acb_code (Some 100) None false)
  = @intraday_to_df env_empty (JRecords []) (@_INTRADAY_MAP env_empty)
                    (@_INTRADAY_DTYPE env_empty)
                    (Some "ACB") "stock" "VCI".
Proof.
  eapply (intraday_hands_answer_on (E := env_empty) acb_code (Some 100) None
            false); reflexivity.
Defined.

(** ** [price_depth] on answers that do not fit *)

Lemma select_missing (d : list (string * list Cell)) (labels : list string)
    (k : string) :
  In k labels -> get d k = None ->
  exists k', In k' labels /\ get d k' = None
             /\ select d labels = Raise (KeyError k').
Proof.
  induction labels as [|l labels IH]; intros Hin Hget; [destruct Hin|].
  cbn [select].
  destruct (get d l) as [col|] eqn:Hl.
  - destruct Hin as [->|Hin]; [rewrite Hl in Hget; discriminate|].
    destruct (IH Hin Hget) as (k' & Hin' & Hget' & Hsel).
    exists k'. rewrite Hsel. repeat split; auto. right. exact Hin'.
  - exists l. repeat split; auto. left. reflexivity.
Qed.

Lemma DataFrame_of_falsy (raw : Json) (k : string) :
  truthy raw = false -> get (data (DataFrame_of raw)) k = None.
Proof.
  destruct raw as [|[|r rows]]; cbn; intros H; [reflexivity..|discriminate].
Qed.

(** X20.  When the answer lacks a column that the depth-column map
    names, [price_depth] ends in [KeyError] for such a column after its
    one request; an empty or falsy answer lacks every column, so with a
    map that is not empty it ends the same way and not in the no-data
    error of [history]. *)
Theorem price_depth_missing_column {E : Env}
    (self : Quote) (show_log_arg : bool) (req : Request) (raw : Json)
    (k : string) :
  requests (price_depth self show_log_arg) = [req] ->
  send_request req = Ok raw ->
  In k (keys _PRICE_DEPTH_MAP) ->
  get (data (DataFrame_of raw)) k = None \/ truthy raw = false ->
  exists k',
    In k' (keys _PRICE_DEPTH_MAP)
    /\ outcome (price_depth self show_log_arg) = Raise (KeyError k')
    /\ ~ NoDataError (KeyError k').
Proof.
  intros Hreq Hsend Hin Hmissing.
  assert (Hget : get (data (DataFrame_of raw)) k = None)
    by (destruct Hmissing as [H|H]; [exact H | apply DataFrame_of_falsy, H]).
  destruct (select_missing _ _ _ Hin Hget) as (k' & Hin' & _ & Hsel).
  exists k'. split; [exact Hin'|]. split; [|discriminate].
  apply requests_price_depth_inv in Hreq as (_ & ->).
  cbn. rewrite Hsend. cbn. unfold getitem_list. rewrite Hsel. reflexivity.
Qed.

Lemma price_depth_missing_column_witness :
  (exists k',
      In k' (keys (@_PRICE_DEPTH_MAP env_short))
      /\ outcome (price_depth (E := env_short) acb_code false)
         = Raise (KeyError k')
      /\ ~ NoDataError (KeyError k'))
  /\ (exists k',
         In k' (keys (@_PRICE_DEPTH_MAP env_empty))
         /\ outcome (price_depth (E := env_empty) acb_code false)
            = Raise (KeyError k')
         /\ ~ NoDataError (KeyError k')).
Proof.
  split.
  - eapply (price_depth_missing_column (E := env_short) acb_code false _ _
              "accumulatedBuyVolume").
    + reflexivity.
    + reflexivity.
    + cbn. auto.
    + left. reflexivity.
  - eapply (price_depth_missing_column (E := env_empty) acb_code false _ _
              "priceStep").
    + reflexivity.
    + reflexivity.
    + cbn. auto.
    + right. reflexivity.
Defined.

(** ** The shape of the price-depth table *)

Lemma length_raw_column (raw : Json) (k : string) :
  List.length (Sent.raw_column raw k) = Logged.records raw.
Proof.
  destruct raw as [|rows]; cbn; [reflexivity | apply length_map].
Qed.

(** X21.  Every column of a table that [price_depth] returns has one
    cell for each record of the answer, in the order of the records:
    rows are neither dropped nor added, and a record that lacks a field
    contributes an empty cell. *)
Theorem price_depth_row_count {E : Env}
    (self : Quote) (show_log_arg : bool) (df : DataFrame) :
  outcome (price_depth self show_log_arg) = Ok df ->
  exists req raw,
    requests (price_depth self show_log_arg) = [req]
    /\ send_request req = Ok raw
    /\ forall label cells,
        In (label, cells) (data df) ->
        List.length cells = Logged.records raw.
Proof.
  intros Hok.
  apply price_depth_ok in Hok
    as (req & raw & selected & Hreqs & _ & Hsend & Hsel & ->).
  exists req, raw. split; [exact Hreqs|]. split; [exact Hsend|].
  unfold getitem_list in Hsel.
  destruct (select (data (DataFrame_of raw)) (keys _PRICE_DEPTH_MAP))
    as [d|] eqn:Hd; cbn in Hsel; inversion Hsel; subst; clear Hsel.
  apply select_DataFrame_of in Hd. subst d.
  intros label cells Hin.
  unfold setattr in Hin.
  destruct (existsb _ _) in Hin; cbn [data rename] in Hin.
  - apply in_map_iff in Hin as ([l c] & Heq & Hin).
    apply in_map_iff in Hin as ([l0 c0] & Heq0 & Hin). cbn in Heq0.
    apply in_map_iff in Hin as (k & Hk & _).
    inversion Hk; subst l0 c0. inversion Heq0; subst l c. clear Hk Heq0.
    cbn [fst snd] in Heq.
    destruct (String.eqb "source" (rename_label _PRICE_DEPTH_MAP k));
      inversion Heq; subst; [rewrite length_map|];
        apply length_raw_column.
  - apply in_map_iff in Hin as ([l0 c0] & Heq0 & Hin). cbn in Heq0.
    apply in_map_iff in Hin as (k & Hk & _).
    inversion Hk; subst l0 c0. inversion Heq0; subst.
    apply length_raw_column.
Qed.

Lemma price_depth_row_count_witness :
  exists df,
    outcome (price_depth (E := env_depth) acb_code false) = Ok df
    /\ exists req raw,
        requests (price_depth (E := env_depth) acb_code false) = [req]
        /\ @send_request env_depth req = Ok raw
        /\ forall label cells,
            In (label, cells) (data df) ->
            List.length cells = Logged.records raw.
Proof.
  eexists. split; [reflexivity|].
  apply (price_depth_row_count (E := env_depth) acb_code false).
  reflexivity.
Defined.

Lemma existsb_eqb_true (x : string) (l : list string) :
  In x l -> existsb (String.eqb x) l = true.
Proof.
  intros Hin. apply existsb_exists. exists x. split; [exact Hin|].
  apply String.eqb_refl.
Qed.

(** the selected and renamed frame, for a map with distinct keys *)
Lemma price_depth_renamed {E : Env} (raw : Json) (selected : DataFrame) :
  NoDup (keys _PRICE_DEPTH_MAP) ->
  getitem_list (DataFrame_of raw) (keys _PRICE_DEPTH_MAP) = Ok selected ->
  data (rename selected _PRICE_DEPTH_MAP)
  = map (fun kv => (snd kv, Sent.raw_column raw (fst kv))) _PRICE_DEPTH_MAP
  /\ columns (rename selected _PRICE_DEPTH_MAP) = values _PRICE_DEPTH_MAP
  /\ attrs (rename selected _PRICE_DEPTH_MAP) = [].
Proof.
  intros Hnd Hsel. unfold getitem_list in Hsel.
  destruct (select (data (DataFrame_of raw)) (keys _PRICE_DEPTH_MAP))
    as [d|] eqn:Hd; cbn in Hsel; inversion Hsel; subst; clear Hsel.
  apply select_DataFrame_of in Hd. subst d.
  assert (Hdata :
    data (rename (mkDataFrame
                    (map (fun k => (k, Sent.raw_column raw k))
                         (keys _PRICE_DEPTH_MAP))
                    (attrs (DataFrame_of raw)))
                 _PRICE_DEPTH_MAP)
    = map (fun kv => (snd kv, Sent.raw_column raw (fst kv))) _PRICE_DEPTH_MAP)
    by (apply rename_keys, Hnd).
  split; [exact Hdata|]. split.
  - unfold columns. rewrite Hdata. unfold values. rewrite map_map.
    reflexivity.
  - destruct raw; reflexivity.
Qed.

(** X22.  When the depth-column map (with distinct keys) renames a
    column to "source", the assignment of the data-source label goes to
    that column: every cell of it becomes the label, the other columns
    keep their cells, and the table receives no attribute. *)
Theorem price_depth_source_column {E : Env}
    (self : Quote) (show_log_arg : bool) (df : DataFrame) :
  NoDup (keys _PRICE_DEPTH_MAP) ->
  In "source" (values _PRICE_DEPTH_MAP) ->
  outcome (price_depth self show_log_arg) = Ok df ->
  exists req raw,
    requests (price_depth self show_log_arg) = [req]
    /\ send_request req = Ok raw
    /\ columns df = values _PRICE_DEPTH_MAP
    /\ attrs df = []
    /\ data df
       = map (fun kv =>
                (snd kv,
                 if String.eqb "source" (snd kv)
                 then map (fun _ => CStr (data_source self))
                          (Sent.raw_column raw (fst kv))
                 else Sent.raw_column raw (fst kv)))
             _PRICE_DEPTH_MAP.
Proof.
  intros Hnd Hsource Hok.
  apply price_depth_ok in Hok
    as (req & raw & selected & Hreqs & _ & Hsend & Hsel & ->).
  exists req, raw. split; [exact Hreqs|]. split; [exact Hsend|].
  destruct (price_depth_renamed raw selected Hnd Hsel)
    as (Hdata & Hcols & Hattrs).
  unfold setattr. rewrite Hcols, (existsb_eqb_true _ _ Hsource).
  unfold columns. cbn [data attrs]. rewrite Hdata, Hattrs, !map_map.
  cbn [fst snd].
  split.
  { unfold values. apply map_ext. intros [k v]. cbn [fst snd].
    destruct (String.eqb "source" v); reflexivity. }
  split; [reflexivity|].
  apply map_ext. intros [k v]. cbn [fst snd].
  destruct (String.eqb "source" v); reflexivity.
Qed.

Lemma price_depth_source_column_witness :
  exists df,
    outcome (price_depth (E := env_source_column) acb_code false) = Ok df
    /\ exists req raw,
        requests (price_depth (E := env_source_column) acb_code false) = [req]
        /\ @send_request env_source_column req = Ok raw
        /\ columns df = values (@_PRICE_DEPTH_MAP env_source_column)
        /\ attrs df = []
        /\ data df
           = map (fun kv =>
                    (snd kv,
                     if String.eqb "source" (snd kv)
                     then map (fun _ => CStr (data_source acb_code))
                              (Sent.raw_column raw (fst kv))
                     else Sent.raw_column raw (fst kv)))
                 (@_PRICE_DEPTH_MAP env_source_column).
Proof.
  eexists. split; [reflexivity|].
  apply (price_depth_source_column (E := env_source_column) acb_code false).
  - repeat constructor; cbn; intuition discriminate.
  - cbn. auto.
  - reflexivity.
Defined.

(** the symbol column of the answer, renamed to "source", comes back
    filled with the label *)
Example price_depth_source_column_example :
  outcome (price_depth (E := env_source_column) acb_code false)
  = Ok (mkDataFrame
          [("price", [CNum (PyFloat 23.5); CNum (PyFloat 23.6)]);
           ("source", [CStr "VCI"; CStr "VCI"])]
          []).
Proof. reflexivity. Qed.

(** ** From construction to the requests *)

Lemma init_kept_symbol {E : Env}
    (symbol_arg : string) (random_agent : bool)
    (proxy_config_arg : option ProxyConfig) (show_log_arg : bool)
    (self : Quote) (s : string) :
  outcome (__init__ symbol_arg random_agent proxy_config_arg show_log_arg)
  = Ok self ->
  validate_symbol symbol_arg = Ok s ->
  if str_in "INDEX" s
  then exists code, get _INDEX_MAPPING s = Some code /\ symbol self = Some code
  else symbol self = Some s.
Proof.
  unfold __init__. intros Hinit Hsym. rewrite Hsym in Hinit.
  cbn -[msg_index str_in] in Hinit.
  destruct (get_asset_type s) as [a|]; cbn -[msg_index str_in] in Hinit;
    [|discriminate].
  destruct (str_in "INDEX" s).
  - unfold _index_validation in Hinit. cbn [symbol str_opt] in Hinit.
    rewrite in_keys_get in Hinit. unfold getitem in Hinit.
    destruct (get _INDEX_MAPPING s) as [code|];
      destruct show_log_arg; cbn -[msg_index str_in] in Hinit;
        inversion Hinit; subst; exists code; split; reflexivity.
  - destruct show_log_arg; cbn in Hinit; inversion Hinit; reflexivity.
Qed.

(** every request of an instance names the symbol the instance holds *)
Lemma requests_name_the_symbol {E : Env} (self : Quote) (s : string) :
  symbol self = Some s ->
  (forall start end_ interval show_log_arg count_back req,
      history_request self start end_ interval show_log_arg count_back
      = Ok req ->
      Logged.symbols_sent req = [Some s])
  /\ (forall page_size last_time show_log_arg req,
         requests (intraday self page_size last_time show_log_arg) = [req] ->
         Logged.symbols_sent req = [Some s])
  /\ (forall show_log_arg req,
         requests (price_depth self show_log_arg) = [req] ->
         Logged.symbols_sent req = [Some s]).
Proof.
  intros Hsym. repeat split.
  - intros start end_ interval show_log_arg count_back req Hreq.
    apply history_request_ok in Hreq
      as (tf & st & et & iv & _ & _ & _ & _ & _ & Hpayload).
    unfold Logged.symbols_sent. rewrite Hpayload, Hsym. reflexivity.
  - intros page_size last_time show_log_arg req Hreq.
    destruct (requests_intraday_inv _ _ _ _ _ Hreq) as (n & -> & Hgate & _).
    destruct (intraday_open self s n last_time show_log_arg Hgate Hsym)
      as (req' & Hreq' & Hpayload).
    rewrite Hreq in Hreq'. inversion Hreq'; subst req'.
    unfold Logged.symbols_sent. rewrite Hpayload. reflexivity.
  - intros show_log_arg req Hreq.
    destruct (requests_price_depth_inv _ _ _ Hreq) as (Hgate & _).
    destruct (price_depth_open self s show_log_arg Hgate Hsym)
      as (req' & Hreq' & Hpayload).
    rewrite Hreq in Hreq'. inversion Hreq'; subst req'.
    unfold Logged.symbols_sent. rewrite Hpayload. reflexivity.
Qed.

(** X23.  An instance built from an index alias sends the internal code
    of the index table upstream, not the alias: every request of
    [history], [intraday] and [price_depth] names that code alone, while
    the asset type handed to the intraday transformer is still the class
    of the alias. *)
Theorem index_code_goes_upstream {E : Env}
    (symbol_arg : string) (random_agent : bool)
    (proxy_config_arg : option ProxyConfig) (show_log0 : bool)
    (self : Quote) (s a : string) :
  outcome (__init__ symbol_arg random_agent proxy_config_arg show_log0)
  = Ok self ->
  validate_symbol symbol_arg = Ok s ->
  get_asset_type s = Ok a ->
  str_in "INDEX" s = true ->
  exists code,
    get _INDEX_MAPPING s = Some code
    /\ asset_type self = a
    /\ (forall start end_ interval show_log_arg count_back req,
           history_request self start end_ interval show_log_arg count_back
           = Ok req ->
           Logged.symbols_sent req = [Some code])
    /\ (forall page_size last_time show_log_arg req,
           requests (intraday self page_size last_time show_log_arg) = [req] ->
           Logged.symbols_sent req = [Some code])
    /\ (forall show_log_arg req,
           requests (price_depth self show_log_arg) = [req] ->
           Logged.symbols_sent req = [Some code]).
Proof.
  intros Hinit Hsym Hasset Hindex.
  pose proof (init_kept_symbol _ _ _ _ _ _ Hinit Hsym) as Hkept.
  rewrite Hindex in Hkept. destruct Hkept as (code & Hget & Hself).
  exists code. split; [exact Hget|]. split.
  - unfold __init__ in Hinit. rewrite Hsym in Hinit.
    cbn -[msg_index str_in] in Hinit. rewrite Hasset in Hinit.
    cbn -[msg_index str_in] in Hinit. rewrite Hindex in Hinit.
    destruct (_index_validation _); destruct show_log0;
      cbn in Hinit; inversion Hinit; reflexivity.
  - apply requests_name_the_symbol, Hself.
Qed.

Lemma index_code_goes_upstream_witness :
  exists code,
    get (@_INDEX_MAPPING env_strict) "HNXINDEX" = Some code
    /\ asset_type hnx = "index"
    /\ (forall start end_ interval show_log_arg count_back req,
           history_request (E := env_strict) hnx start end_ interval
                           show_log_arg count_back
           = Ok req ->
           Logged.symbols_sent req = [Some code])
    /\ (forall page_size last_time show_log_arg req,
           requests (intraday (E := env_strict) hnx page_size last_time
                              show_log_arg) = [req] ->
           Logged.symbols_sent req = [Some code])
    /\ (forall show_log_arg req,
           requests (price_depth (E := env_strict) hnx show_log_arg) = [req] ->
           Logged.symbols_sent req = [Some code]).
Proof.
  apply (index_code_goes_upstream (E := env_strict) "HNXINDEX" false None true
           hnx "HNXINDEX" "index"); reflexivity.
Defined.

(** the alias HNXINDEX goes out as HNXIndex *)
Example index_code_in_requests :
  map Logged.symbols_sent
      (requests (intraday (E := env_strict) hnx (Some 100) None false)
       ++ requests (price_depth (E := env_strict) hnx false)
       ++ requests (history (E := env_strict) hnx
                            "2024-01-01" (Some "2024-01-05") "1D"
                            false None 2))%list
  = [[Some "HNXIndex"]; [Some "HNXIndex"]; [Some "HNXIndex"]].
Proof. reflexivity. Qed.
